(** * pyalgotrade.bitstamp.livebroker: trade monitor and live broker

    A shallow embedding of [pyalgotrade/bitstamp/livebroker.py] and of the
    properties its specification states about it.

    Conventions of the embedding.
    - Python integers (trade and order identifiers) are [Z].
    - Python floats are kept abstract behind the interface [PyFloat]; the
      program only adds, subtracts, rounds, takes absolute values and
      compares them.  An exact decimal instance on [Q] is used to run the
      program on concrete inputs.
    - Dictionaries are [gmap]s; orders are mutable objects, so whenever an
      order that is still stored in a dictionary is mutated the dictionary
      entry is updated with it.
    - A method that mutates [self] and may raise is a function
      [S -> Result A * S]: the state reached when the exception is raised
      is kept, as in Python.
    - The exchange is reached through an HTTP client whose answers are
      inputs of the model.
    - The poller thread is followed for as many iterations as answers are
      given; [join], which only waits for that thread, is not modelled. *)

From Stdlib Require Import ZArith QArith List Lia.
From stdpp Require Import gmap strings list sorting.

Close Scope Q_scope.
Open Scope Z_scope.

(** ** Exceptions and the state-and-exception monad *)

(** Instances of (subclasses of) Python's [Exception]: what a handler
    [except Exception, e] catches. *)
Inductive exn : Type :=
  | Exception (msg : string)
  | NotImplementedError
  | KeyError (key : Z + string)
  | IndexError
  | IOError (msg : string)
  | ValueError (msg : string).

Inductive Result (A : Type) : Type :=
  | Ok (a : A)
  | Raise (e : exn).
Arguments Ok {A} a.
Arguments Raise {A} e.

Definition M (S A : Type) : Type := S -> Result A * S.

Definition ret {S A} (a : A) : M S A := fun s => (Ok a, s).

Definition bind {S A B} (c : M S A) (k : A -> M S B) : M S B :=
  fun s => match c s with
           | (Ok a, s') => k a s'
           | (Raise e, s') => (Raise e, s')
           end.

Definition raise {S A} (e : exn) : M S A := fun s => (Raise e, s).

Definition get {S} : M S S := fun s => (Ok s, s).

Definition gets {S A} (f : S -> A) : M S A := fun s => (Ok (f s), s).

Definition modify {S} (f : S -> S) : M S unit := fun s => (Ok tt, f s).

(** [lift r] is a call whose outcome [r] is decided outside of [self]. *)
Definition lift {S A} (r : Result A) : M S A := fun s => (r, s).

(** [try: c  except Exception, e: h e] *)
Definition try_except {S A} (c : M S A) (h : exn -> M S A) : M S A :=
  fun s => match c s with
           | (Ok a, s') => (Ok a, s')
           | (Raise e, s') => h e s'
           end.

Notation "x <- c ;; k" := (bind c (fun x => k))
  (at level 20, c at level 99, k at level 200, only parsing).
Notation "c ;; k" := (bind c (fun _ => k))
  (at level 100, k at level 200, right associativity, only parsing).

(** [for x in xs: body x] *)
Fixpoint for_each {S A} (xs : list A) (body : A -> M S unit) : M S unit :=
  match xs with
  | [] => ret tt
  | x :: rest => body x ;; for_each rest body
  end.

Definition outcome {S A} (r : Result A * S) : Result A := fst r.
Definition state_after {S A} (r : Result A * S) : S := snd r.

(** ** Floats *)

(** The operations the program performs on Python floats. *)
Class PyFloat (F : Type) : Type := {
  f0 : F;                       (* the literal 0 *)
  fadd : F -> F -> F;           (* x + y *)
  fsub : F -> F -> F;           (* x - y *)
  fabs : F -> F;                (* abs(x) *)
  fround : F -> Z -> F;         (* round(x, ndigits) *)
  feqb : F -> F -> bool;        (* x == y *)
  fltb : F -> F -> bool         (* x < y *)
}.

(** Exact decimals: every result is kept in lowest terms, so that equal
    numbers are equal terms.  [round] rounds half away from zero, as
    Python 2 does. *)
Module Decimal.

Definition round_half_away (q : Q) : Z :=
  let n := Qnum q in
  let d := Zpos (Qden q) in
  Z.sgn n * ((2 * Z.abs n + d) / (2 * d)).

Definition round (q : Q) (ndigits : Z) : Q :=
  let scale := Z.to_pos (10 ^ ndigits) in
  Qred (Qmake (round_half_away (Qmult q (Qmake (Zpos scale) 1))) scale).

Definition abs (q : Q) : Q := Qmake (Z.abs (Qnum q)) (Qden q).

Definition ltb (x y : Q) : bool :=
  Z.ltb (Qnum x * Zpos (Qden y)) (Qnum y * Zpos (Qden x)).

#[export] Instance float : PyFloat Q := {|
  f0 := Qmake 0 1;
  fadd x y := Qred (Qplus x y);
  fsub x y := Qred (Qminus x y);
  fabs := abs;
  fround := round;
  feqb := Qeq_bool;
  fltb := ltb
|}.

(** [dec n k] is the decimal [n * 10^-k]. *)
Definition dec (n : Z) (k : Z) : Q := Qred (Qmake n (Z.to_pos (10 ^ k))).

End Decimal.

(** ** Logging *)

(** The records handed to [common.logger]; a record keeps the arguments of
    its format string. *)
Inductive LogRecord (F : Type) : Type :=
  | info_last_trade_found (lastTradeId : Z)
  | info_new_trades_found (n : nat)
  | critical_error_retrieving_user_transactions (exc_info : exn)
  | info_retrieving_account_balance
  | info_usd (cash : F)
  | info_btc (btc : F)
  | info_retrieving_open_orders
  | info_open_orders_found (n : nat)
  | info_initializing_trade_monitor
  | info_trade_refered_to_inactive_order (tradeId orderId : Z)
  | info_shutting_down_trade_monitor
  | error_invalid_event (eventType : Z).
Arguments info_last_trade_found {F}.
Arguments info_new_trades_found {F}.
Arguments critical_error_retrieving_user_transactions {F}.
Arguments info_retrieving_account_balance {F}.
Arguments info_usd {F}.
Arguments info_btc {F}.
Arguments info_retrieving_open_orders {F}.
Arguments info_open_orders_found {F}.
Arguments info_initializing_trade_monitor {F}.
Arguments info_trade_refered_to_inactive_order {F}.
Arguments info_shutting_down_trade_monitor {F}.
Arguments error_invalid_event {F}.

Definition is_info {F} (r : LogRecord F) : bool :=
  match r with
  | critical_error_retrieving_user_transactions _ => false
  | error_invalid_event _ => false
  | _ => true
  end.

(** ** The HTTP client (pyalgotrade.bitstamp.httpclient) *)

Definition DateTime : Type := Z.

(** A user transaction of kind MARKET_TRADE, as the client returns it. *)
Record UserTrade (F : Type) : Type := {
  ut_getId : Z;
  ut_getOrderId : Z;
  ut_getFee : F;
  ut_getBTCUSD : F;
  ut_getBTC : F;
  ut_getUSD : F;
  ut_getDateTime : DateTime
}.
Arguments ut_getId {F}.
Arguments ut_getOrderId {F}.
Arguments ut_getFee {F}.
Arguments ut_getBTCUSD {F}.
Arguments ut_getBTC {F}.
Arguments ut_getUSD {F}.
Arguments ut_getDateTime {F}.

Record OpenOrder (F : Type) : Type := {
  oo_getId : Z;
  oo_isBuy : bool;
  oo_isSell : bool;
  oo_getPrice : F;
  oo_getAmount : F;
  oo_getDateTime : DateTime
}.
Arguments oo_getId {F}.
Arguments oo_isBuy {F}.
Arguments oo_isSell {F}.
Arguments oo_getPrice {F}.
Arguments oo_getAmount {F}.
Arguments oo_getDateTime {F}.

Record AccountBalance (F : Type) : Type := {
  getUSDAvailable : F;
  getBTCAvailable : F
}.
Arguments getUSDAvailable {F}.
Arguments getBTCAvailable {F}.

(** What the exchange answers to each request of the client: a value, or
    the exception the call raises. *)
Record HTTPClient (F : Type) : Type := {
  getAccountBalance : Result (AccountBalance F);
  getOpenOrders : Result (list (OpenOrder F));
  getUserTransactions : Result (list (UserTrade F));
  http_cancelOrder : Z -> Result unit
}.
Arguments getAccountBalance {F}.
Arguments getOpenOrders {F}.
Arguments getUserTransactions {F}.
Arguments http_cancelOrder {F}.

(** The requests sent to the exchange, in order. *)
Inductive HTTPRequest : Type :=
  | req_getAccountBalance
  | req_getOpenOrders
  | req_getUserTransactions
  | req_cancelOrder (orderId : Z).

(** ** The trade monitor *)

Module TradeMonitor.
Section WithFloat.
Context {F : Type}.

Definition POLL_FREQUENCY : Z := 2.

(* Events *)
Definition ON_USER_TRADE : Z := 1.

(** The attributes of a [TradeMonitor]; [alive] is the state of the
    underlying thread, [clock] the time spent in [time.sleep] and [log]
    what the monitor logged. *)
Record t : Type := {
  __lastTradeId : Z;
  __queue : list (Z * list (UserTrade F));
  __stop : bool;
  alive : bool;
  clock : Z;
  log : list (LogRecord F)
}.

Definition __init__ : t :=
  {| __lastTradeId := -1; __queue := []; __stop := false;
     alive := false; clock := 0; log := [] |}.

Definition set_lastTradeId (v : Z) (tm : t) : t :=
  {| __lastTradeId := v; __queue := __queue tm; __stop := __stop tm;
     alive := alive tm; clock := clock tm; log := log tm |}.

Definition queue_put (item : Z * list (UserTrade F)) (tm : t) : t :=
  {| __lastTradeId := __lastTradeId tm; __queue := __queue tm ++ [item];
     __stop := __stop tm; alive := alive tm; clock := clock tm;
     log := log tm |}.

Definition set_queue (q : list (Z * list (UserTrade F))) (tm : t) : t :=
  {| __lastTradeId := __lastTradeId tm; __queue := q;
     __stop := __stop tm; alive := alive tm; clock := clock tm;
     log := log tm |}.

Definition set_stop (v : bool) (tm : t) : t :=
  {| __lastTradeId := __lastTradeId tm; __queue := __queue tm; __stop := v;
     alive := alive tm; clock := clock tm; log := log tm |}.

Definition set_alive (v : bool) (tm : t) : t :=
  {| __lastTradeId := __lastTradeId tm; __queue := __queue tm;
     __stop := __stop tm; alive := v; clock := clock tm; log := log tm |}.

Definition sleep (seconds : Z) (tm : t) : t :=
  {| __lastTradeId := __lastTradeId tm; __queue := __queue tm;
     __stop := __stop tm; alive := alive tm; clock := clock tm + seconds;
     log := log tm |}.

Definition logger (r : LogRecord F) (tm : t) : t :=
  {| __lastTradeId := __lastTradeId tm; __queue := __queue tm;
     __stop := __stop tm; alive := alive tm; clock := clock tm;
     log := log tm ++ [r] |}.

(** The loop of [_getNewTrades]: collect until the first trade that is
    not newer than [lastTradeId], then [break]. *)
Fixpoint collect_new (lastTradeId : Z) (userTrades : list (UserTrade F))
  : list (UserTrade F) :=
  match userTrades with
  | [] => []
  | userTrade :: rest =>
      if Z.ltb lastTradeId (ut_getId userTrade)
      then userTrade :: collect_new lastTradeId rest
      else []
  end.

(** [userTrades] is what [getUserTransactions(MARKET_TRADE)] answers. *)
Definition _getNewTrades (userTrades : Result (list (UserTrade F)))
  : M t (list (UserTrade F)) :=
  userTrades <- lift userTrades ;;
  lastTradeId <- gets __lastTradeId ;;
  (* Get the new trades only; older trades first. *)
  ret (rev (collect_new lastTradeId userTrades)).

Definition getQueue (tm : t) : list (Z * list (UserTrade F)) := __queue tm.

(** [trades[-1]] *)
Definition last_item (trades : list (UserTrade F)) : M t (UserTrade F) :=
  match last trades with
  | Some trade => ret trade
  | None => raise IndexError
  end.

Definition start (userTrades : Result (list (UserTrade F))) : M t unit :=
  trades <- _getNewTrades userTrades ;;
  (* Store the last trade id since we'll start processing new ones only. *)
  (if negb (Nat.eqb (length trades) 0)
   then trade <- last_item trades ;;
        modify (set_lastTradeId (ut_getId trade)) ;;
        modify (logger (info_last_trade_found (ut_getId trade)))
   else ret tt) ;;
  modify (set_alive true).

(** The [try] block of one iteration of [run]. *)
Definition run_try (userTrades : Result (list (UserTrade F))) : M t unit :=
  trades <- _getNewTrades userTrades ;;
  if negb (Nat.eqb (length trades) 0)
  then trade <- last_item trades ;;
       modify (set_lastTradeId (ut_getId trade)) ;;
       modify (logger (info_new_trades_found (length trades))) ;;
       modify (queue_put (ON_USER_TRADE, trades))
  else ret tt.

(** One iteration of the [while] loop of [run]. *)
Definition run_iteration (userTrades : Result (list (UserTrade F)))
  : M t unit :=
  try_except (run_try userTrades)
    (fun e =>
       modify (logger (critical_error_retrieving_user_transactions e))) ;;
  modify (sleep POLL_FREQUENCY).

(** [run]: one iteration for each answer of the exchange, as long as the
    stop flag is not set.  The model follows the thread for as many
    iterations as there are answers. *)
Fixpoint run (fetches : list (Result (list (UserTrade F)))) : M t unit :=
  match fetches with
  | [] => ret tt
  | userTrades :: rest =>
      stopped <- gets __stop ;;
      if negb stopped
      then run_iteration userTrades ;; run rest
      else ret tt
  end.

Definition stop (tm : t) : t := set_stop true tm.

End WithFloat.
Arguments t : clear implicits.
End TradeMonitor.

(** ** The broker framework (pyalgotrade.broker) *)

Module Action.
Inductive t : Type := BUY | SELL.
End Action.

Module State.
Inductive t : Type := INITIAL | ACCEPTED | PARTIALLY_FILLED | FILLED | CANCELED.
End State.

Module OrderEventType.
Inductive t : Type := PARTIALLY_FILLED | FILLED | CANCELED.
End OrderEventType.

Module broker.
Section WithFloat.
Context {F : Type} `{PyFloat F}.

(** Modelled from the spec: the class [broker.InstrumentTraits], not among
    the sources; quantity rounding is instrument-specific and delegated to
    the traits of the instrument. *)
Record InstrumentTraits : Type := {
  roundQuantity : F -> F
}.

(** Modelled from the spec: the class [broker.OrderExecutionInfo], not
    among the sources; an execution record holds the fill price, the
    (absolute) filled quantity, the fee and the timestamp. *)
Record OrderExecutionInfo : Type := {
  getPrice : F;
  getQuantity : F;
  getCommission : F;
  getDateTime : DateTime
}.

(** Modelled from the spec: the class [broker.Order] is defined in
    [pyalgotrade/broker/__init__.py], which is not among the sources. An
    order has an identifier, a side, an instrument, a limit price, a
    quantity, instrument-specific rounding traits, a state and its
    accumulated execution history. *)
Record Order : Type := {
  getId : Z;
  getAction : Action.t;
  getInstrument : string;
  getLimitPrice : F;
  getOrderQuantity : F;
  getInstrumentTraits : InstrumentTraits;
  getState : State.t;
  getSubmitDateTime : option DateTime;
  getFilled : F;
  getExecutionHistory : list OrderExecutionInfo
}.

(** Modelled from the spec: the constructor [broker.LimitOrder]; nothing
    is filled yet. *)
Definition LimitOrder (orderId : Z) (action : Action.t) (instrument : string)
  (limitPrice quantity : F) (instrumentTraits : InstrumentTraits) : Order :=
  {| getId := orderId; getAction := action; getInstrument := instrument;
     getLimitPrice := limitPrice; getOrderQuantity := quantity;
     getInstrumentTraits := instrumentTraits; getState := State.INITIAL;
     getSubmitDateTime := None; getFilled := f0;
     getExecutionHistory := [] |}.

(** Modelled from the spec: [Order.setState] and [Order.switchState],
    which put the order in the given state. *)
Definition setState (newState : State.t) (o : Order) : Order :=
  {| getId := getId o; getAction := getAction o;
     getInstrument := getInstrument o; getLimitPrice := getLimitPrice o;
     getOrderQuantity := getOrderQuantity o;
     getInstrumentTraits := getInstrumentTraits o; getState := newState;
     getSubmitDateTime := getSubmitDateTime o; getFilled := getFilled o;
     getExecutionHistory := getExecutionHistory o |}.

Definition switchState (newState : State.t) (o : Order) : Order :=
  setState newState o.

(** Modelled from the spec: [Order.setSubmitDateTime]. *)
Definition setSubmitDateTime (dateTime : DateTime) (o : Order) : Order :=
  {| getId := getId o; getAction := getAction o;
     getInstrument := getInstrument o; getLimitPrice := getLimitPrice o;
     getOrderQuantity := getOrderQuantity o;
     getInstrumentTraits := getInstrumentTraits o; getState := getState o;
     getSubmitDateTime := Some dateTime; getFilled := getFilled o;
     getExecutionHistory := getExecutionHistory o |}.

(** Modelled from the spec: [Order.isFilled]; the order is in the Filled
    state. *)
Definition isFilled (o : Order) : bool :=
  match getState o with
  | State.FILLED => true
  | _ => false
  end.

(** Modelled from the spec: [Order.isActive]; an active order is an order
    not yet in a terminal state (Filled or Canceled). *)
Definition isActive (o : Order) : bool :=
  match getState o with
  | State.FILLED | State.CANCELED => false
  | _ => true
  end.

(** Modelled from the spec: [Order.addExecutionInfo]; the execution is
    appended to the history, and an order whose cumulative filled quantity
    reaches its full quantity becomes Filled, while an order filled below
    its full quantity becomes PartiallyFilled. *)
Definition addExecutionInfo (orderExecutionInfo : OrderExecutionInfo)
  (o : Order) : Order :=
  let filled := fadd (getFilled o) (getQuantity orderExecutionInfo) in
  {| getId := getId o; getAction := getAction o;
     getInstrument := getInstrument o; getLimitPrice := getLimitPrice o;
     getOrderQuantity := getOrderQuantity o;
     getInstrumentTraits := getInstrumentTraits o;
     getState := if fltb filled (getOrderQuantity o)
                 then State.PARTIALLY_FILLED else State.FILLED;
     getSubmitDateTime := getSubmitDateTime o; getFilled := filled;
     getExecutionHistory := getExecutionHistory o ++ [orderExecutionInfo] |}.

(** The third argument of [OrderEvent]: an execution, or a reason. *)
Inductive EventInfo : Type :=
  | execution (orderExecutionInfo : OrderExecutionInfo)
  | reason (msg : string).

(** Modelled from the spec: the class [broker.OrderEvent], not among the
    sources; a lifecycle event of kind Filled, PartiallyFilled or Canceled.
    The event holds the order as it is when the event is emitted. *)
Record OrderEvent : Type := {
  getOrder : Order;
  getEventType : OrderEventType.t;
  getEventInfo : EventInfo
}.

End WithFloat.
Arguments InstrumentTraits : clear implicits.
Arguments OrderExecutionInfo : clear implicits.
Arguments Order : clear implicits.
Arguments EventInfo : clear implicits.
Arguments OrderEvent : clear implicits.
End broker.

(** ** pyalgotrade.bitstamp.common *)

(** The module [common] is not among the sources: the symbol of the traded
    instrument and its traits are parameters of the model. *)
Class Common (F : Type) : Type := {
  btc_symbol : string;
  BTCTraits : broker.InstrumentTraits F
}.

(** ** build_order_from_open_order *)

Section BuildOrder.
Context {F : Type} `{PyFloat F} `{Common F}.

Definition build_order_from_open_order (openOrder : OpenOrder F)
  (instrumentTraits : broker.InstrumentTraits F) : Result (broker.Order F) :=
  match
    (if oo_isBuy openOrder then Ok Action.BUY
     else if oo_isSell openOrder then Ok Action.SELL
     else Raise (Exception "Invalid order type"))
  with
  | Raise e => Raise e
  | Ok action =>
      let ret := broker.LimitOrder (oo_getId openOrder) action btc_symbol
                   (oo_getPrice openOrder) (oo_getAmount openOrder)
                   instrumentTraits in
      let ret := broker.setState State.ACCEPTED ret in
      let ret := broker.setSubmitDateTime (oo_getDateTime openOrder) ret in
      Ok ret
  end.

End BuildOrder.

(** ** The live broker *)

Module LiveBroker.
Section WithFloat.
Context {F : Type} `{PyFloat F} `{Common F}.

Definition QUEUE_TIMEOUT : Q := Qmake 1 100.

(** The attributes of a [LiveBroker].  [requests] are the requests its
    HTTP client sent so far, [events] the order events handed to
    [notifyOrderEvent], [log] what the broker logged. *)
Record t : Type := {
  __stop : bool;
  __httpClient : HTTPClient F;
  __tradeMonitor : TradeMonitor.t F;
  __cash : F;
  __shares : gmap string F;
  __activeOrders : gmap Z (broker.Order F);
  requests : list HTTPRequest;
  events : list (broker.OrderEvent F);
  log : list (LogRecord F)
}.

Definition __init__ (httpClient : HTTPClient F) : t :=
  {| __stop := false; __httpClient := httpClient;
     __tradeMonitor := TradeMonitor.__init__;
     __cash := f0; __shares := ∅; __activeOrders := ∅;
     requests := []; events := []; log := [] |}.

Definition set_stop (v : bool) (b : t) : t :=
  {| __stop := v; __httpClient := __httpClient b;
     __tradeMonitor := __tradeMonitor b; __cash := __cash b;
     __shares := __shares b; __activeOrders := __activeOrders b;
     requests := requests b; events := events b; log := log b |}.

Definition set_tradeMonitor (v : TradeMonitor.t F) (b : t) : t :=
  {| __stop := __stop b; __httpClient := __httpClient b;
     __tradeMonitor := v; __cash := __cash b;
     __shares := __shares b; __activeOrders := __activeOrders b;
     requests := requests b; events := events b; log := log b |}.

Definition set_cash (v : F) (b : t) : t :=
  {| __stop := __stop b; __httpClient := __httpClient b;
     __tradeMonitor := __tradeMonitor b; __cash := v;
     __shares := __shares b; __activeOrders := __activeOrders b;
     requests := requests b; events := events b; log := log b |}.

Definition set_shares (v : gmap string F) (b : t) : t :=
  {| __stop := __stop b; __httpClient := __httpClient b;
     __tradeMonitor := __tradeMonitor b; __cash := __cash b;
     __shares := v; __activeOrders := __activeOrders b;
     requests := requests b; events := events b; log := log b |}.

Definition set_activeOrders (v : gmap Z (broker.Order F)) (b : t) : t :=
  {| __stop := __stop b; __httpClient := __httpClient b;
     __tradeMonitor := __tradeMonitor b; __cash := __cash b;
     __shares := __shares b; __activeOrders := v;
     requests := requests b; events := events b; log := log b |}.

Definition sent (r : HTTPRequest) (b : t) : t :=
  {| __stop := __stop b; __httpClient := __httpClient b;
     __tradeMonitor := __tradeMonitor b; __cash := __cash b;
     __shares := __shares b; __activeOrders := __activeOrders b;
     requests := requests b ++ [r]; events := events b; log := log b |}.

Definition notified (e : broker.OrderEvent F) (b : t) : t :=
  {| __stop := __stop b; __httpClient := __httpClient b;
     __tradeMonitor := __tradeMonitor b; __cash := __cash b;
     __shares := __shares b; __activeOrders := __activeOrders b;
     requests := requests b; events := events b ++ [e]; log := log b |}.

Definition logged (r : LogRecord F) (b : t) : t :=
  {| __stop := __stop b; __httpClient := __httpClient b;
     __tradeMonitor := __tradeMonitor b; __cash := __cash b;
     __shares := __shares b; __activeOrders := __activeOrders b;
     requests := requests b; events := events b; log := log b ++ [r] |}.

Definition logger (r : LogRecord F) : M t unit := modify (logged r).

Definition notifyOrderEvent (e : broker.OrderEvent F) : M t unit :=
  modify (notified e).

(** A call [self.__httpClient.m(...)]: the request is sent, then the call
    returns or raises what the exchange answers. *)
Definition http {A} (r : HTTPRequest) (answer : HTTPClient F -> Result A)
  : M t A :=
  modify (sent r) ;;
  httpClient <- gets __httpClient ;;
  lift (answer httpClient).

(** A method call on [self.__tradeMonitor]. *)
Definition on_tradeMonitor {A} (c : M (TradeMonitor.t F) A) : M t A :=
  fun b => let (r, tm) := c (__tradeMonitor b) in (r, set_tradeMonitor tm b).

(** [del self.__shares[key]] *)
Definition del_shares (key : string) : M t unit :=
  shares <- gets __shares ;;
  match shares !! key with
  | Some _ => modify (set_shares (delete key shares))
  | None => raise (KeyError (inr key))
  end.

(** [del self.__activeOrders[key]] *)
Definition del_activeOrders (key : Z) : M t unit :=
  activeOrders <- gets __activeOrders ;;
  match activeOrders !! key with
  | Some _ => modify (set_activeOrders (delete key activeOrders))
  | None => raise (KeyError (inl key))
  end.

Definition getInstrumentTraits (instrument : string)
  : broker.InstrumentTraits F := BTCTraits.

Definition refreshAccountBalance : M t unit :=
  modify (set_stop true) ;;  (* Stop running in case of errors. *)
  logger info_retrieving_account_balance ;;
  balance <- http req_getAccountBalance getAccountBalance ;;
  (* Cash *)
  modify (set_cash (fround (getUSDAvailable balance) 2)) ;;
  cash <- gets __cash ;;
  logger (info_usd cash) ;;
  (* BTC *)
  let btc := getBTCAvailable balance in
  modify (set_shares {[ btc_symbol := btc ]}) ;;
  logger (info_btc btc) ;;
  modify (set_stop false).  (* No errors. Keep running. *)

(** The body of the loop of [refreshOpenOrders]. *)
Definition refreshOpenOrders_body (openOrder : OpenOrder F) : M t unit :=
  order <- lift (build_order_from_open_order openOrder
                   (getInstrumentTraits btc_symbol)) ;;
  activeOrders <- gets __activeOrders ;;
  modify (set_activeOrders (<[oo_getId openOrder := order]> activeOrders)).

Definition refreshOpenOrders : M t unit :=
  modify (set_stop true) ;;  (* Stop running in case of errors. *)
  logger info_retrieving_open_orders ;;
  openOrders <- http req_getOpenOrders getOpenOrders ;;
  for_each openOrders refreshOpenOrders_body ;;
  logger (info_open_orders_found (length openOrders)) ;;
  modify (set_stop false).  (* No errors. Keep running. *)

Definition _startTradeMonitor : M t unit :=
  modify (set_stop true) ;;  (* Stop running in case of errors. *)
  logger info_initializing_trade_monitor ;;
  httpClient <- gets __httpClient ;;
  modify (sent req_getUserTransactions) ;;
  on_tradeMonitor (TradeMonitor.start (getUserTransactions httpClient)) ;;
  modify (set_stop false).  (* No errors. Keep running. *)

(** The body of the loop of [_onUserTrades].  The order found in
    [__activeOrders] is an object: once it is mutated, the entry it was
    found under, if it is still there, holds the mutated order. *)
Definition _onUserTrades_body (trade : UserTrade F) : M t unit :=
  activeOrders <- gets __activeOrders ;;
  match activeOrders !! ut_getOrderId trade with
  | Some order =>
      let fee := ut_getFee trade in
      let fillPrice := ut_getBTCUSD trade in
      let btcAmount := ut_getBTC trade in
      let usdAmount := ut_getUSD trade in
      let dateTime := ut_getDateTime trade in
      (* Update cash, shares and active orders. *)
      cash <- gets __cash ;;
      modify (set_cash (fround (fsub (fadd cash usdAmount) fee) 2)) ;;
      shares <- gets __shares ;;
      modify (set_shares
                (<[btc_symbol :=
                     broker.roundQuantity (broker.getInstrumentTraits order)
                       (fadd (default f0 (shares !! btc_symbol)) btcAmount)]>
                   shares)) ;;
      shares <- gets __shares ;;
      (match shares !! btc_symbol with
       | Some quantity =>
           if feqb quantity f0 then del_shares btc_symbol else ret tt
       | None => raise (KeyError (inr btc_symbol))
       end) ;;
      (if negb (broker.isActive order)
       then del_activeOrders (broker.getId order)
       else ret tt) ;;
      (* Notify that the order was updated. *)
      let orderExecutionInfo :=
        {| broker.getPrice := fillPrice;
           broker.getQuantity := fabs btcAmount;
           broker.getCommission := fee;
           broker.getDateTime := dateTime |} in
      let order := broker.addExecutionInfo orderExecutionInfo order in
      activeOrders <- gets __activeOrders ;;
      modify (set_activeOrders
                (alter (fun _ => order) (ut_getOrderId trade) activeOrders)) ;;
      let eventType :=
        if broker.isFilled order
        then OrderEventType.FILLED
        else OrderEventType.PARTIALLY_FILLED in
      notifyOrderEvent
        {| broker.getOrder := order;
           broker.getEventType := eventType;
           broker.getEventInfo := broker.execution orderExecutionInfo |}
  | None =>
      logger (info_trade_refered_to_inactive_order
                (ut_getId trade) (ut_getOrderId trade))
  end.

Definition _onUserTrades (trades : list (UserTrade F)) : M t unit :=
  for_each trades _onUserTrades_body.

(* BEGIN observer.Subject interface *)

Definition start : M t unit :=
  refreshAccountBalance ;;
  refreshOpenOrders ;;
  _startTradeMonitor.

Definition stop : M t unit :=
  modify (set_stop true) ;;
  logger info_shutting_down_trade_monitor ;;
  on_tradeMonitor (modify TradeMonitor.stop).

Definition eof (b : t) : bool := __stop b.

(** [dispatch]: an empty queue ([Queue.Empty] after the timeout) is
    passed over. *)
Definition dispatch : M t unit :=
  tradeMonitor <- gets __tradeMonitor ;;
  match TradeMonitor.getQueue tradeMonitor with
  | (eventType, eventData) :: rest =>
      on_tradeMonitor (modify (TradeMonitor.set_queue rest)) ;;
      if Z.eqb eventType TradeMonitor.ON_USER_TRADE
      then _onUserTrades eventData
      else logger (error_invalid_event eventType)
  | [] => ret tt
  end.

Definition peekDateTime (b : t) : option DateTime := None.

(* END observer.Subject interface *)

(* BEGIN broker.Broker interface *)

Definition getCash (includeShort : bool) (b : t) : F := __cash b.

Definition getShares (instrument : string) (b : t) : F :=
  default f0 (__shares b !! instrument).

Definition getPositions : M t (gmap string F) := raise NotImplementedError.

Definition getActiveOrders (instrument : option string) (b : t)
  : list (broker.Order F) :=
  snd <$> map_to_list (__activeOrders b).

Definition submitOrder (order : broker.Order F) : M t unit :=
  raise NotImplementedError.

Definition createMarketOrder (action : Action.t) (instrument : string)
  (quantity : F) (onClose : bool) : M t (broker.Order F) :=
  raise (Exception "Market orders are not supported").

Definition createLimitOrder (action : Action.t) (instrument : string)
  (limitPrice quantity : F) : M t (broker.Order F) :=
  raise NotImplementedError.

Definition createStopOrder (action : Action.t) (instrument : string)
  (stopPrice quantity : F) : M t (broker.Order F) :=
  raise (Exception "Stop orders are not supported").

Definition createStopLimitOrder (action : Action.t) (instrument : string)
  (stopPrice limitPrice quantity : F) : M t (broker.Order F) :=
  raise (Exception "Stop limit orders are not supported").

(** [cancelOrder(order)] mutates the order it is given and [self]: its
    state is the pair of the two. *)
Definition on_self {A} (c : M t A) : M (broker.Order F * t) A :=
  fun s => let (r, b) := c (snd s) in (r, (fst s, b)).

Definition on_order (f : broker.Order F -> broker.Order F)
  : M (broker.Order F * t) unit :=
  modify (fun s => (f (fst s), snd s)).

Definition cancelOrder : M (broker.Order F * t) unit :=
  order <- gets fst ;;
  on_self (http (req_cancelOrder (broker.getId order))
             (fun httpClient =>
                http_cancelOrder httpClient (broker.getId order))) ;;
  on_self (del_activeOrders (broker.getId order)) ;;
  on_order (broker.switchState State.CANCELED) ;;
  order <- gets fst ;;
  on_self (notifyOrderEvent
             {| broker.getOrder := order;
                broker.getEventType := OrderEventType.CANCELED;
                broker.getEventInfo :=
                  broker.reason "User requested cancellation" |}).

(* END broker.Broker interface *)

End WithFloat.
Arguments t : clear implicits.
End LiveBroker.

(** ** Concrete inputs *)

(** The instrument of the exchange, with quantities rounded to eight
    decimals, on exact decimals. *)
Module Example.
Import Decimal.

#[export] Instance common : Common Q := {|
  btc_symbol := "BTC";
  BTCTraits := {| broker.roundQuantity q := fround q 8 |}
|}.

Definition trade (id orderId : Z) (btc usd fee price : Q) : UserTrade Q :=
  {| ut_getId := id; ut_getOrderId := orderId; ut_getFee := fee;
     ut_getBTCUSD := price; ut_getBTC := btc; ut_getUSD := usd;
     ut_getDateTime := id |}.

(** Open order O1: buy 1.0 BTC at 100. *)
Definition O1 : OpenOrder Q :=
  {| oo_getId := 1; oo_isBuy := true; oo_isSell := false;
     oo_getPrice := dec 100 0; oo_getAmount := dec 1 0;
     oo_getDateTime := 0 |}.

(** T1: +0.4 BTC, cost 40.00, fee 0.10.  T2: +0.6 BTC, cost 60.00,
    fee 0.15.  Both belong to O1. *)
Definition T1 : UserTrade Q :=
  trade 11 1 (dec 4 1) (dec (-40) 0) (dec 10 2) (dec 100 0).
Definition T2 : UserTrade Q :=
  trade 12 1 (dec 6 1) (dec (-60) 0) (dec 15 2) (dec 100 0).

(** A trade that fills O1 at once. *)
Definition T_full : UserTrade Q :=
  trade 13 1 (dec 1 0) (dec (-100) 0) (dec 25 2) (dec 100 0).

(** A trade of an order that is not tracked. *)
Definition T77 : UserTrade Q :=
  trade 14 77 (dec 1 0) (dec (-100) 0) (dec 25 2) (dec 100 0).

(** An exchange holding [usd] and [btc], with the open orders
    [openOrders] and the trade history [userTrades], that accepts every
    cancellation. *)
Definition exchange (usd btc : Q) (openOrders : list (OpenOrder Q))
  (userTrades : list (UserTrade Q)) : HTTPClient Q :=
  {| getAccountBalance :=
       Ok {| getUSDAvailable := usd; getBTCAvailable := btc |};
     getOpenOrders := Ok openOrders;
     getUserTransactions := Ok userTrades;
     http_cancelOrder := fun _ => Ok tt |}.

(** An exchange that fails every request. *)
Definition unreachable : HTTPClient Q :=
  {| getAccountBalance := Raise (IOError "connection refused");
     getOpenOrders := Raise (IOError "connection refused");
     getUserTransactions := Raise (IOError "connection refused");
     http_cancelOrder := fun _ => Raise (IOError "connection refused") |}.

(** An exchange like [exchange], that fails every cancellation. *)
Definition rejecting (usd btc : Q) (openOrders : list (OpenOrder Q))
  (userTrades : list (UserTrade Q)) : HTTPClient Q :=
  {| getAccountBalance :=
       Ok {| getUSDAvailable := usd; getBTCAvailable := btc |};
     getOpenOrders := Ok openOrders;
     getUserTransactions := Ok userTrades;
     http_cancelOrder := fun _ => Raise (IOError "connection refused") |}.

(** The order the broker builds for O1, and an order it does not know. *)
Definition order_O1 : broker.Order Q :=
  broker.setSubmitDateTime 0
    (broker.setState State.ACCEPTED
       (broker.LimitOrder 1 Action.BUY btc_symbol (dec 100 0) (dec 1 0)
          BTCTraits)).

Definition order_77 : broker.Order Q :=
  broker.setState State.ACCEPTED
    (broker.LimitOrder 77 Action.SELL btc_symbol (dec 100 0) (dec 1 0)
       BTCTraits).

(** The broker after [start()] on an account with 1000.00 USD, no BTC and
    the open order O1. *)
Definition started : LiveBroker.t Q :=
  state_after
    (LiveBroker.start
       (LiveBroker.__init__ (exchange (dec 1000 0) (dec 0 0) [O1] []))).

Definition started_rejecting : LiveBroker.t Q :=
  state_after
    (LiveBroker.start
       (LiveBroker.__init__ (rejecting (dec 1000 0) (dec 0 0) [O1] []))).

(** What the poller is answered in three cycles. *)
Definition feed : list (Result (list (UserTrade Q))) :=
  [Ok [T1]; Raise (IOError "timed out"); Ok [T2; T1]].

End Example.


(** ** Vocabulary of the properties of the trade monitor *)

Section PollerVocabulary.
Context {F : Type}.

(** The feed of the exchange lists the newest trade first. *)
Definition newest_first (userTrades : list (UserTrade F)) : Prop :=
  StronglySorted (fun a b => ut_getId b <= ut_getId a) userTrades.

Definition oldest_first (userTrades : list (UserTrade F)) : Prop :=
  StronglySorted (fun a b => ut_getId a <= ut_getId b) userTrades.

Definition answer_newest_first (answer : Result (list (UserTrade F))) : Prop :=
  match answer with
  | Ok userTrades => newest_first userTrades
  | Raise _ => True
  end.

(** The identifiers of the trades the monitor was shown, in order. *)
Fixpoint observed_ids (fetches : list (Result (list (UserTrade F)))) : list Z :=
  match fetches with
  | [] => []
  | Ok userTrades :: rest => List.map ut_getId userTrades ++ observed_ids rest
  | Raise _ :: rest => observed_ids rest
  end.

(** The greatest of [start] and [ids]. *)
Definition max_trade_id (start : Z) (ids : list Z) : Z :=
  fold_left Z.max ids start.

(** The fetched trades whose identifier is greater than [lastTradeId]. *)
Definition newer_than (lastTradeId : Z) (userTrades : list (UserTrade F))
  : list (UserTrade F) :=
  List.filter (fun userTrade => Z.ltb lastTradeId (ut_getId userTrade))
    userTrades.

(** What a cycle puts in the queue for a batch: nothing if it is empty. *)
Definition published (batch : list (UserTrade F))
  : list (Z * list (UserTrade F)) :=
  match batch with
  | [] => []
  | _ => [(TradeMonitor.ON_USER_TRADE, batch)]
  end.

(** The monitor after one iteration of [run]. *)
Definition cycle (answer : Result (list (UserTrade F)))
  (tm : TradeMonitor.t F) : TradeMonitor.t F :=
  state_after (TradeMonitor.run_iteration answer tm).

(** The monitor after [run] went through [fetches]. *)
Definition after_run (fetches : list (Result (list (UserTrade F))))
  (tm : TradeMonitor.t F) : TradeMonitor.t F :=
  state_after (TradeMonitor.run fetches tm).

End PollerVocabulary.

(** ** Vocabulary of the properties of the live broker *)

Section BrokerVocabulary.
Context {F : Type} `{PyFloat F} `{Common F}.

(** No instrument is held with a quantity equal to zero. *)
Definition no_zero_holding (b : LiveBroker.t F) : Prop :=
  forall instrument quantity,
    LiveBroker.__shares b !! instrument = Some quantity ->
    feqb quantity f0 = false.

(** The execution record [_onUserTrades] builds for a trade. *)
Definition execution_of (trade : UserTrade F) : broker.OrderExecutionInfo F :=
  {| broker.getPrice := ut_getBTCUSD trade;
     broker.getQuantity := fabs (ut_getBTC trade);
     broker.getCommission := ut_getFee trade;
     broker.getDateTime := ut_getDateTime trade |}.

(** The cash after a trade. *)
Definition cash_after (trade : UserTrade F) (cash : F) : F :=
  fround (fsub (fadd cash (ut_getUSD trade)) (ut_getFee trade)) 2.

(** The holding of the traded instrument after a trade of [order]. *)
Definition holding_after (trade : UserTrade F) (order : broker.Order F)
  (shares : gmap string F) : F :=
  broker.roundQuantity (broker.getInstrumentTraits order)
    (fadd (default f0 (shares !! btc_symbol)) (ut_getBTC trade)).

(** The holdings after a trade of [order]. *)
Definition shares_after (trade : UserTrade F) (order : broker.Order F)
  (shares : gmap string F) : gmap string F :=
  if feqb (holding_after trade order shares) f0
  then delete btc_symbol shares
  else <[btc_symbol := holding_after trade order shares]> shares.

(** The event emitted for a trade of [order]. *)
Definition event_of (trade : UserTrade F) (order : broker.Order F)
  : broker.OrderEvent F :=
  let order' := broker.addExecutionInfo (execution_of trade) order in
  {| broker.getOrder := order';
     broker.getEventType :=
       if broker.isFilled order'
       then OrderEventType.FILLED
       else OrderEventType.PARTIALLY_FILLED;
     broker.getEventInfo := broker.execution (execution_of trade) |}.

(** What a failed refresh leaves behind: the trade monitor is untouched
    and, if the refresh raised, the stop flag is set. *)
Definition halted_like (b : LiveBroker.t F)
  (r : Result unit * LiveBroker.t F) : Prop :=
  LiveBroker.__tradeMonitor (state_after r) = LiveBroker.__tradeMonitor b /\
  forall e, outcome r = Raise e -> LiveBroker.__stop (state_after r) = true.

End BrokerVocabulary.

(** ** Vocabulary of the further properties *)

Section FurtherVocabulary.
Context {F : Type} `{PyFloat F} `{Common F}.

(** Every active order is stored under its own identifier. *)
Definition well_keyed (b : LiveBroker.t F) : Prop :=
  forall key order,
    LiveBroker.__activeOrders b !! key = Some order ->
    broker.getId order = key.

(** The open order is a buy or a sell order. *)
Definition has_side (openOrder : OpenOrder F) : bool :=
  oo_isBuy openOrder || oo_isSell openOrder.

(** What the processing of trades leaves alone: the stop flag, the HTTP
    client and the requests sent, the trade monitor, and the holdings of
    the instruments other than the traded one. *)
Definition untouched_by_trades (b b' : LiveBroker.t F) : Prop :=
  LiveBroker.__stop b' = LiveBroker.__stop b /\
  LiveBroker.__httpClient b' = LiveBroker.__httpClient b /\
  LiveBroker.__tradeMonitor b' = LiveBroker.__tradeMonitor b /\
  LiveBroker.requests b' = LiveBroker.requests b /\
  forall instrument,
    instrument <> btc_symbol ->
    LiveBroker.__shares b' !! instrument = LiveBroker.__shares b !! instrument.

(** The log entry of a trade whose order is not tracked. *)
Definition orphan_entry (trade : UserTrade F) : LogRecord F :=
  info_trade_refered_to_inactive_order (ut_getId trade) (ut_getOrderId trade).

(** The event [cancelOrder] emits for an order. *)
Definition canceled_event (order : broker.Order F) : broker.OrderEvent F :=
  {| broker.getOrder := order;
     broker.getEventType := OrderEventType.CANCELED;
     broker.getEventInfo := broker.reason "User requested cancellation" |}.

(** The broker with the queue of its trade monitor replaced. *)
Definition with_queue (queue : list (Z * list (UserTrade F)))
  (b : LiveBroker.t F) : LiveBroker.t F :=
  LiveBroker.set_tradeMonitor
    (TradeMonitor.set_queue queue (LiveBroker.__tradeMonitor b)) b.

(** The broker once its trade monitor went through one more iteration of
    [run] that was answered [answer]. *)
Definition polled (answer : Result (list (UserTrade F)))
  (b : LiveBroker.t F) : LiveBroker.t F :=
  LiveBroker.set_tradeMonitor (cycle answer (LiveBroker.__tradeMonitor b)) b.

(** What the refreshes of [start] leave alone. *)
Definition same_exchange_and_monitor (b b' : LiveBroker.t F) : Prop :=
  LiveBroker.__httpClient b' = LiveBroker.__httpClient b /\
  LiveBroker.__tradeMonitor b' = LiveBroker.__tradeMonitor b /\
  LiveBroker.events b' = LiveBroker.events b.

End FurtherVocabulary.

(** Further concrete inputs. *)
Module Inputs.
Import Decimal Example.

(** An open order that is neither a buy nor a sell order. *)
Definition O_bad : OpenOrder Q :=
  {| oo_getId := 2; oo_isBuy := false; oo_isSell := false;
     oo_getPrice := dec 100 0; oo_getAmount := dec 1 0;
     oo_getDateTime := 0 |}.

(** Open order O3: sell 0.5 BTC at 120. *)
Definition O3 : OpenOrder Q :=
  {| oo_getId := 3; oo_isBuy := false; oo_isSell := true;
     oo_getPrice := dec 120 0; oo_getAmount := dec 5 1;
     oo_getDateTime := 0 |}.

(** An exchange whose trade history cannot be fetched. *)
Definition no_history (usd btc : Q) (openOrders : list (OpenOrder Q))
  : HTTPClient Q :=
  {| getAccountBalance :=
       Ok {| getUSDAvailable := usd; getBTCAvailable := btc |};
     getOpenOrders := Ok openOrders;
     getUserTransactions := Raise (IOError "timed out");
     http_cancelOrder := fun _ => Ok tt |}.

(** A new broker on an account with 1000.00 USD, 2 BTC and the open
    orders O1 and O3. *)
Definition fresh : LiveBroker.t Q :=
  LiveBroker.__init__ (exchange (dec 1000 0) (dec 2 0) [O1; O3] [T1]).

(** A new broker on an exchange that lists an open order without a side
    between O1 and O3. *)
Definition half_listed : LiveBroker.t Q :=
  LiveBroker.__init__ (exchange (dec 1000 0) (dec 2 0) [O1; O_bad; O3] []).

(** A new broker on an exchange whose trade history cannot be fetched. *)
Definition blind : LiveBroker.t Q :=
  LiveBroker.__init__ (no_history (dec 1000 0) (dec 2 0) [O1]).

(** The started broker of the scenario once T1 and T2 were processed, and
    the order O1 as it is then. *)
Definition after_T1_T2 : LiveBroker.t Q :=
  state_after (LiveBroker._onUserTrades [T1; T2] started).

Definition order_O1_filled : broker.Order Q :=
  broker.addExecutionInfo (execution_of T2)
    (broker.addExecutionInfo (execution_of T1) order_O1).

End Inputs.

(** Runs the monadic code of a method of the broker up to its next call. *)
Ltac monadic :=
  unfold LiveBroker.logger, LiveBroker.notifyOrderEvent, LiveBroker.http,
    LiveBroker.del_shares, LiveBroker.del_activeOrders, LiveBroker.on_self,
    LiveBroker.on_order, LiveBroker.on_tradeMonitor,
    bind, gets, modify, ret, raise, lift;
  cbn beta iota zeta delta
    [fst snd LiveBroker.__stop LiveBroker.__httpClient
     LiveBroker.__tradeMonitor LiveBroker.__cash LiveBroker.__shares
     LiveBroker.__activeOrders LiveBroker.requests LiveBroker.events
     LiveBroker.log LiveBroker.set_stop LiveBroker.set_tradeMonitor
     LiveBroker.set_cash LiveBroker.set_shares LiveBroker.set_activeOrders
     LiveBroker.sent LiveBroker.notified LiveBroker.logged outcome
     state_after].

(** * Properties *)

(** ** The trade monitor *)

Section Poller.
Context {F : Type}.
Implicit Types (tm : TradeMonitor.t F) (userTrades : list (UserTrade F)).
Implicit Types (fetches : list (Result (list (UserTrade F)))).

Import TradeMonitor.

Lemma collect_new_newer lastTradeId userTrades trade :
  In trade (collect_new lastTradeId userTrades) ->
  lastTradeId < ut_getId trade.
Proof.
  induction userTrades as [|u rest IH]; simpl; [tauto|].
  destruct (Z.ltb_spec lastTradeId (ut_getId u)) as [Hlt|Hge]; simpl.
  - intros [<-|Hin]; auto.
  - tauto.
Qed.

Lemma newer_than_none lastTradeId userTrades :
  (forall trade, In trade userTrades -> ut_getId trade <= lastTradeId) ->
  newer_than lastTradeId userTrades = [].
Proof.
  induction userTrades as [|u rest IH]; simpl; intros Hall; [reflexivity|].
  destruct (Z.ltb_spec lastTradeId (ut_getId u)) as [Hlt|Hge].
  - specialize (Hall u (or_introl eq_refl)). lia.
  - apply IH. intros trade Hin. apply Hall. now right.
Qed.

(** On a feed that lists the newest trade first, stopping at the first
    trade that is not new loses nothing. *)
Lemma collect_new_newer_than lastTradeId userTrades :
  newest_first userTrades ->
  collect_new lastTradeId userTrades = newer_than lastTradeId userTrades.
Proof.
  induction 1 as [|u rest Hsorted IH Hle]; simpl; [reflexivity|].
  destruct (Z.ltb_spec lastTradeId (ut_getId u)) as [Hlt|Hge].
  - f_equal. exact IH.
  - symmetry. apply newer_than_none. intros trade Hin.
    rewrite List.Forall_forall in Hle. specialize (Hle trade Hin). lia.
Qed.

Lemma newer_than_newest_first lastTradeId userTrades :
  newest_first userTrades -> newest_first (newer_than lastTradeId userTrades).
Proof.
  induction 1 as [|u rest Hsorted IH Hle]; simpl; [constructor|].
  destruct (Z.ltb lastTradeId (ut_getId u)); [|exact IH].
  constructor; [exact IH|].
  rewrite List.Forall_forall in *. intros trade Hin.
  apply Hle. unfold newer_than in Hin. apply List.filter_In in Hin. tauto.
Qed.

Lemma rev_oldest_first userTrades :
  newest_first userTrades -> oldest_first (rev userTrades).
Proof.
  induction 1 as [|u rest Hsorted IH Hle]; simpl; [constructor|].
  apply StronglySorted_app_2; [|exact IH|repeat constructor].
  intros a b Ha Hb. apply list_elem_of_In in Ha, Hb.
  apply List.in_rev in Ha. destruct Hb as [<-|[]].
  rewrite List.Forall_forall in Hle. auto.
Qed.

Lemma max_trade_id_bounded start ids :
  (forall id, In id ids -> id <= start) -> max_trade_id start ids = start.
Proof.
  unfold max_trade_id. revert start.
  induction ids as [|i ids IH]; simpl; intros start Hall; [reflexivity|].
  rewrite Z.max_l by (apply Hall; now left).
  apply IH. intros id Hin. apply Hall. now right.
Qed.

Lemma max_trade_id_app start ids1 ids2 :
  max_trade_id start (ids1 ++ ids2)
  = max_trade_id (max_trade_id start ids1) ids2.
Proof. unfold max_trade_id. apply List.fold_left_app. Qed.

Lemma max_trade_id_ge start ids : start <= max_trade_id start ids.
Proof.
  unfold max_trade_id. revert start.
  induction ids as [|i ids IH]; simpl; intros start; [lia|].
  specialize (IH (Z.max start i)). lia.
Qed.

Lemma max_trade_id_upper start ids id :
  In id ids -> id <= max_trade_id start ids.
Proof.
  unfold max_trade_id. revert start.
  induction ids as [|i ids IH]; simpl; intros start; [tauto|].
  intros [->|Hin]; [|auto].
  pose proof (max_trade_id_ge (Z.max start id) ids) as Hge.
  unfold max_trade_id in Hge. lia.
Qed.

Lemma max_trade_id_attained start ids :
  max_trade_id start ids = start \/ In (max_trade_id start ids) ids.
Proof.
  unfold max_trade_id. revert start.
  induction ids as [|i ids IH]; simpl; intros start; [now left|].
  destruct (IH (Z.max start i)) as [Heq|Hin]; [|now right; right].
  rewrite Heq. destruct (Z.max_spec start i) as [[_ ->]|[_ ->]]; auto.
Qed.

(** *** One iteration of [run] *)

Lemma run_iteration_Raise e tm :
  run_iteration (Raise e) tm
  = (Ok tt,
     sleep POLL_FREQUENCY
       (logger (critical_error_retrieving_user_transactions e) tm)).
Proof. reflexivity. Qed.

Lemma run_iteration_Ok_nothing_new userTrades tm :
  collect_new (__lastTradeId tm) userTrades = [] ->
  run_iteration (Ok userTrades) tm = (Ok tt, sleep POLL_FREQUENCY tm).
Proof.
  intros Hnone.
  unfold run_iteration, try_except, run_try, _getNewTrades, bind, lift,
    gets, ret, modify.
  rewrite Hnone. reflexivity.
Qed.

Lemma run_iteration_Ok_new userTrades tm newest others :
  collect_new (__lastTradeId tm) userTrades = newest :: others ->
  run_iteration (Ok userTrades) tm
  = (Ok tt,
     sleep POLL_FREQUENCY
       (queue_put (ON_USER_TRADE, rev (newest :: others))
          (logger (info_new_trades_found (length (rev (newest :: others))))
             (set_lastTradeId (ut_getId newest) tm)))).
Proof.
  intros Hnew.
  assert (Hlen : Nat.eqb (length (rev (newest :: others))) 0 = false).
  { apply Nat.eqb_neq. rewrite List.length_rev. discriminate. }
  assert (Hlast : last (rev (newest :: others)) = Some newest).
  { simpl. apply last_snoc. }
  unfold run_iteration, try_except, run_try, _getNewTrades, bind, lift,
    gets, ret, modify.
  rewrite Hnew.
  cbv beta iota zeta. cbn [fst snd]. rewrite Hlen. cbn [negb].
  unfold last_item. rewrite Hlast. reflexivity.
Qed.

(** An iteration never raises. *)
Lemma run_iteration_returns answer tm :
  run_iteration answer tm = (Ok tt, cycle answer tm).
Proof.
  unfold cycle, state_after.
  destruct answer as [userTrades|e]; [|reflexivity].
  destruct (collect_new (__lastTradeId tm) userTrades)
    as [|newest others] eqn:Hnew.
  - now rewrite (run_iteration_Ok_nothing_new _ _ Hnew).
  - now rewrite (run_iteration_Ok_new _ _ _ _ Hnew).
Qed.

Lemma cycle_stop answer tm : __stop (cycle answer tm) = __stop tm.
Proof.
  unfold cycle. destruct answer as [userTrades|e]; [|reflexivity].
  destruct (collect_new (__lastTradeId tm) userTrades)
    as [|newest others] eqn:Hnew.
  - now rewrite (run_iteration_Ok_nothing_new _ _ Hnew).
  - now rewrite (run_iteration_Ok_new _ _ _ _ Hnew).
Qed.

(** The watermark never decreases, whatever the exchange answers. *)
Lemma cycle_lastTradeId_mono answer tm :
  __lastTradeId tm <= __lastTradeId (cycle answer tm).
Proof.
  unfold cycle. destruct answer as [userTrades|e]; [|simpl; lia].
  destruct (collect_new (__lastTradeId tm) userTrades)
    as [|newest others] eqn:Hnew.
  - rewrite (run_iteration_Ok_nothing_new _ _ Hnew). simpl. lia.
  - rewrite (run_iteration_Ok_new _ _ _ _ Hnew). simpl.
    assert (__lastTradeId tm < ut_getId newest); [|lia].
    apply (collect_new_newer _ userTrades). rewrite Hnew. now left.
Qed.

(** What an iteration publishes is newer than the watermark. *)
Lemma cycle_queue answer tm :
  exists batch,
    __queue (cycle answer tm) = __queue tm ++ published batch /\
    forall trade, In trade batch -> __lastTradeId tm < ut_getId trade.
Proof.
  unfold cycle. destruct answer as [userTrades|e].
  - destruct (collect_new (__lastTradeId tm) userTrades)
      as [|newest others] eqn:Hnew.
    + rewrite (run_iteration_Ok_nothing_new _ _ Hnew). exists []. simpl.
      split; [now rewrite List.app_nil_r|tauto].
    + rewrite (run_iteration_Ok_new _ _ _ _ Hnew).
      exists (rev (newest :: others)). split.
      * unfold published.
        destruct (rev (newest :: others)) eqn:Hrev; [|reflexivity].
        apply (f_equal (@length _)) in Hrev.
        rewrite List.length_rev in Hrev. discriminate.
      * intros trade Hin. apply List.in_rev in Hin. rewrite <- Hnew in Hin.
        now apply collect_new_newer in Hin.
  - exists []. simpl. split; [now rewrite List.app_nil_r|tauto].
Qed.

(** On a feed that lists the newest trade first, an iteration publishes
    exactly the trades above the watermark, oldest first, and moves the
    watermark to the greatest identifier seen. *)
Lemma cycle_Ok_newest_first userTrades tm :
  newest_first userTrades ->
  __queue (cycle (Ok userTrades) tm)
  = __queue tm ++ published (rev (newer_than (__lastTradeId tm) userTrades))
  /\ __lastTradeId (cycle (Ok userTrades) tm)
     = max_trade_id (__lastTradeId tm) (List.map ut_getId userTrades).
Proof.
  intros Hsorted. unfold cycle.
  rewrite <- (collect_new_newer_than _ _ Hsorted).
  destruct (collect_new (__lastTradeId tm) userTrades)
    as [|newest others] eqn:Hnew.
  - rewrite (run_iteration_Ok_nothing_new _ _ Hnew). simpl.
    split; [now rewrite List.app_nil_r|].
    symmetry. apply max_trade_id_bounded. intros id Hin.
    apply List.in_map_iff in Hin as (trade & <- & Hin).
    destruct Hsorted as [|u rest Hrest Hle]; [destruct Hin|].
    simpl in Hnew.
    destruct (Z.ltb_spec (__lastTradeId tm) (ut_getId u)); [discriminate|].
    destruct Hin as [<-|Hin]; [lia|].
    rewrite List.Forall_forall in Hle. specialize (Hle trade Hin). lia.
  - rewrite (run_iteration_Ok_new _ _ _ _ Hnew). cbn [state_after snd].
    split.
    + simpl. unfold published.
      destruct (rev others ++ [newest]) eqn:Hrev; [|reflexivity].
      now destruct (rev others).
    + simpl.
      destruct Hsorted as [|u rest Hrest Hle]; [discriminate|].
      simpl in Hnew.
      destruct (Z.ltb_spec (__lastTradeId tm) (ut_getId u)); [|discriminate].
      injection Hnew as <- _. simpl. unfold max_trade_id. simpl.
      rewrite Z.max_r by lia.
      symmetry. apply max_trade_id_bounded. intros id Hin.
      apply List.in_map_iff in Hin as (trade & <- & Hin).
      rewrite List.Forall_forall in Hle. auto.
Qed.

(** [start] sets the watermark and starts the thread, and publishes
    nothing. *)
Lemma start_Ok userTrades tm :
  newest_first userTrades ->
  exists tm',
    start (Ok userTrades) tm = (Ok tt, tm') /\
    __lastTradeId tm'
    = max_trade_id (__lastTradeId tm) (List.map ut_getId userTrades) /\
    __queue tm' = __queue tm /\
    alive tm' = true.
Proof.
  intros Hsorted.
  pose proof (cycle_Ok_newest_first userTrades tm Hsorted) as [_ Hmax].
  unfold cycle in Hmax.
  unfold start, _getNewTrades, bind, lift, gets, ret, modify.
  destruct (collect_new (__lastTradeId tm) userTrades)
    as [|newest others] eqn:Hnew.
  - rewrite (run_iteration_Ok_nothing_new _ _ Hnew) in Hmax.
    eexists. split; [reflexivity|]. repeat split. exact Hmax.
  - rewrite (run_iteration_Ok_new _ _ _ _ Hnew) in Hmax.
    assert (Hlen : Nat.eqb (length (rev (newest :: others))) 0 = false).
    { apply Nat.eqb_neq. rewrite List.length_rev. discriminate. }
    assert (Hlast : last (rev (newest :: others)) = Some newest).
    { simpl. apply last_snoc. }
    cbv beta iota zeta. cbn [fst snd]. rewrite Hlen. cbn [negb].
    unfold last_item. rewrite Hlast.
    eexists. split; [reflexivity|]. repeat split. exact Hmax.
Qed.

(** *** The loop *)

Lemma run_cons answer fetches tm :
  __stop tm = false ->
  run (answer :: fetches) tm = run fetches (cycle answer tm).
Proof.
  intros Hrun. cbn [run]. unfold bind at 1, gets. rewrite Hrun. cbn [negb].
  unfold bind. now rewrite run_iteration_returns.
Qed.

Lemma after_run_cons answer fetches tm :
  __stop tm = false ->
  after_run (answer :: fetches) tm = after_run fetches (cycle answer tm).
Proof. intros Hrun. unfold after_run. now rewrite run_cons. Qed.

(** [run] never raises. *)
Lemma run_returns fetches tm : outcome (run fetches tm) = Ok tt.
Proof.
  revert tm. induction fetches as [|answer rest IH]; intros tm; [reflexivity|].
  destruct (__stop tm) eqn:Hstop.
  - cbn [run]. unfold bind at 1, gets. now rewrite Hstop.
  - rewrite run_cons by exact Hstop. apply IH.
Qed.

Lemma after_run_app fetches1 fetches2 tm :
  __stop tm = false ->
  after_run (fetches1 ++ fetches2) tm
  = after_run fetches2 (after_run fetches1 tm).
Proof.
  revert tm. induction fetches1 as [|answer rest IH]; intros tm Hrun.
  - reflexivity.
  - rewrite <- List.app_comm_cons, !after_run_cons by exact Hrun.
    apply IH. now rewrite cycle_stop.
Qed.

Lemma after_run_stop fetches tm :
  __stop tm = false -> __stop (after_run fetches tm) = false.
Proof.
  revert tm. induction fetches as [|answer rest IH]; intros tm Hrun.
  - exact Hrun.
  - rewrite after_run_cons by exact Hrun. apply IH. now rewrite cycle_stop.
Qed.

Lemma after_run_lastTradeId_mono fetches tm :
  __stop tm = false ->
  __lastTradeId tm <= __lastTradeId (after_run fetches tm).
Proof.
  revert tm. induction fetches as [|answer rest IH]; intros tm Hrun.
  - unfold after_run. simpl. lia.
  - rewrite after_run_cons by exact Hrun.
    pose proof (cycle_lastTradeId_mono answer tm).
    specialize (IH (cycle answer tm)). rewrite cycle_stop in IH.
    specialize (IH Hrun). lia.
Qed.

(** Nothing at or below a watermark is published once it is reached. *)
Lemma after_run_queue fetches tm :
  __stop tm = false ->
  exists items,
    __queue (after_run fetches tm) = __queue tm ++ items /\
    forall item trade,
      In item items -> In trade (snd item) ->
      __lastTradeId tm < ut_getId trade.
Proof.
  revert tm. induction fetches as [|answer rest IH]; intros tm Hrun.
  - exists []. split; [unfold after_run; simpl; now rewrite List.app_nil_r|].
    intros ? ? [].
  - rewrite after_run_cons by exact Hrun.
    destruct (cycle_queue answer tm) as (batch & Hqueue & Hnew).
    destruct (IH (cycle answer tm)) as (items & Hitems & Hlater).
    { now rewrite cycle_stop. }
    exists (published batch ++ items). split.
    + rewrite Hitems, Hqueue. now rewrite <- List.app_assoc.
    + intros item trade Hitem Htrade. apply List.in_app_or in Hitem.
      destruct Hitem as [Hitem|Hitem].
      * destruct batch; [destruct Hitem|].
        destruct Hitem as [<-|[]]. auto.
      * pose proof (cycle_lastTradeId_mono answer tm).
        specialize (Hlater item trade Hitem Htrade). lia.
Qed.

Lemma after_run_max_trade_id fetches tm :
  __stop tm = false ->
  Forall answer_newest_first fetches ->
  __lastTradeId (after_run fetches tm)
  = max_trade_id (__lastTradeId tm) (observed_ids fetches).
Proof.
  intros Hrun Hsorted. revert tm Hrun.
  induction Hsorted as [|answer rest Hanswer Hrest IH]; intros tm Hrun.
  - reflexivity.
  - rewrite after_run_cons by exact Hrun.
    rewrite IH by now rewrite cycle_stop.
    destruct answer as [userTrades|e]; simpl.
    + rewrite max_trade_id_app. f_equal.
      now apply cycle_Ok_newest_first.
    + reflexivity.
Qed.

End Poller.

Section PollerClaims.
Context {F : Type}.
Implicit Types (tm : TradeMonitor.t F) (userTrades : list (UserTrade F)).
Implicit Types (fetches : list (Result (list (UserTrade F)))).

Import TradeMonitor.

(** C3. Let the poller go through any sequence [fetches] of fetch cycles
    and then through one more cycle that fetches [userTrades].  The
    watermark [lastTradeId] never decreases, and every trade published
    since a watermark was reached has an identifier strictly greater than
    that watermark, so no trade is published again.  On a feed that lists
    the newest trade first, the watermark after the cycles is the greatest
    of the watermark the poller had and of all the trade identifiers it
    was shown (it bounds every identifier shown and, once it moved, is one
    of them), and the batch the next cycle publishes holds exactly the
    fetched trades whose identifier is strictly greater than the
    watermark, oldest first. *)
Theorem watermark_is_greatest_trade_id_seen fetches userTrades tm :
  __stop tm = false ->
  let tm1 := after_run fetches tm in
  let tm2 := after_run (fetches ++ [Ok userTrades]) tm in
  let batch := rev (newer_than (__lastTradeId tm1) userTrades) in
  (__lastTradeId tm <= __lastTradeId tm1 /\
   __lastTradeId tm1 <= __lastTradeId tm2) /\
  (exists items,
     __queue tm2 = __queue tm ++ items /\
     forall item trade,
       In item items -> In trade (snd item) ->
       __lastTradeId tm < ut_getId trade) /\
  (Forall answer_newest_first fetches ->
   __lastTradeId tm1
   = max_trade_id (__lastTradeId tm) (observed_ids fetches) /\
   (forall id, In id (observed_ids fetches) -> id <= __lastTradeId tm1) /\
   (__lastTradeId tm1 = __lastTradeId tm \/
    In (__lastTradeId tm1) (observed_ids fetches))) /\
  (newest_first userTrades ->
   __queue tm2 = __queue tm1 ++ published batch /\
   oldest_first batch /\
   (forall trade,
      In trade batch <->
      In trade userTrades /\ __lastTradeId tm1 < ut_getId trade)).
Proof.
  intros Hrun tm1 tm2 batch.
  assert (Hrun1 : __stop tm1 = false) by now apply after_run_stop.
  assert (Htm2 : tm2 = cycle (Ok userTrades) tm1).
  { unfold tm2. rewrite after_run_app by exact Hrun.
    fold tm1. now rewrite after_run_cons. }
  split; [|split; [|split]].
  - split; [now apply after_run_lastTradeId_mono|].
    rewrite Htm2. apply cycle_lastTradeId_mono.
  - apply after_run_queue. exact Hrun.
  - intros Hfeed.
    assert (Hmax : __lastTradeId tm1
                   = max_trade_id (__lastTradeId tm) (observed_ids fetches))
      by now apply after_run_max_trade_id.
    split; [exact Hmax|]. split.
    + intros id Hin. rewrite Hmax. now apply max_trade_id_upper.
    + rewrite Hmax. apply max_trade_id_attained.
  - intros Hsorted. split; [|split].
    + rewrite Htm2. now apply cycle_Ok_newest_first.
    + apply rev_oldest_first. now apply newer_than_newest_first.
    + intros trade. unfold batch, newer_than.
      rewrite <- List.in_rev, List.filter_In, Z.ltb_lt. tauto.
Qed.

(** C7. In a cycle of the poller in which the trade fetch raises, the
    failure is logged, the watermark [lastTradeId] is left unchanged,
    nothing is put in the queue, and the loop sleeps for the polling
    interval and goes on with the next cycle; whatever the fetches
    answer, [run] never ends with an exception. *)
Theorem fetch_failure_is_logged_and_skipped e fetches tm :
  __stop tm = false ->
  let tm' := cycle (Raise e) tm in
  run_iteration (Raise e) tm = (Ok tt, tm') /\
  log tm' = log tm ++ [critical_error_retrieving_user_transactions e] /\
  __lastTradeId tm' = __lastTradeId tm /\
  __queue tm' = __queue tm /\
  clock tm' = clock tm + POLL_FREQUENCY /\
  __stop tm' = false /\
  run (Raise e :: fetches) tm = run fetches tm' /\
  (forall fetches' tm0, outcome (run fetches' tm0) = Ok tt).
Proof.
  intros Hrun tm'.
  split; [apply run_iteration_returns|].
  repeat split; try reflexivity.
  - exact Hrun.
  - now apply run_cons.
  - intros fetches' tm0. apply run_returns.
Qed.

End PollerClaims.


(** ** The live broker *)

Section Broker.
Context {F : Type} `{PyFloat F} `{Common F}.
Implicit Types (b : LiveBroker.t F) (trade : UserTrade F).
Implicit Types (order : broker.Order F).

Import LiveBroker.


(** *** Trades of orders that are not tracked *)

Lemma _onUserTrades_body_unknown trade b :
  __activeOrders b !! ut_getOrderId trade = None ->
  _onUserTrades_body trade b
  = (Ok tt,
     logged (info_trade_refered_to_inactive_order
               (ut_getId trade) (ut_getOrderId trade)) b).
Proof.
  intros Hnone. unfold _onUserTrades_body. monadic.
  rewrite Hnone. reflexivity.
Qed.

(** *** Trades of tracked orders *)

(** A trade of an order that is tracked and active. *)
Lemma _onUserTrades_body_active trade order b :
  __activeOrders b !! ut_getOrderId trade = Some order ->
  broker.isActive order = true ->
  _onUserTrades_body trade b
  = (Ok tt,
     notified (event_of trade order)
       (set_activeOrders
          (<[ut_getOrderId trade :=
               broker.addExecutionInfo (execution_of trade) order]>
             (__activeOrders b))
          (set_shares (shares_after trade order (__shares b))
             (set_cash (cash_after trade (__cash b)) b)))).
Proof.
  intros Hsome Hactive. unfold _onUserTrades_body. monadic.
  rewrite Hsome. monadic. rewrite lookup_insert_eq.
  fold (holding_after trade order (__shares b)).
  fold (execution_of trade). rewrite Hactive. cbn [negb].
  assert (Halter :
    alter (fun _ => broker.addExecutionInfo (execution_of trade) order)
      (ut_getOrderId trade) (__activeOrders b)
    = <[ut_getOrderId trade :=
          broker.addExecutionInfo (execution_of trade) order]>
        (__activeOrders b)).
  { apply map_eq. intros k. rewrite lookup_alter, lookup_insert.
    destruct (decide (ut_getOrderId trade = k)) as [<-|]; [|reflexivity].
    now rewrite Hsome. }
  unfold shares_after, event_of.
  destruct (feqb (holding_after trade order (__shares b)) f0) eqn:Hzero.
  - monadic. rewrite lookup_insert_eq. monadic.
    rewrite delete_insert_eq, Halter. reflexivity.
  - monadic. rewrite Halter. reflexivity.
Qed.

(** Cash and holdings after a trade of a tracked order, active or not. *)
Lemma _onUserTrades_body_tracked trade order b :
  __activeOrders b !! ut_getOrderId trade = Some order ->
  let b' := state_after (_onUserTrades_body trade b) in
  __cash b' = cash_after trade (__cash b) /\
  __shares b' = shares_after trade order (__shares b).
Proof.
  intros Hsome. unfold _onUserTrades_body. monadic.
  rewrite Hsome. monadic. rewrite lookup_insert_eq.
  fold (holding_after trade order (__shares b)).
  unfold shares_after, cash_after.
  destruct (feqb (holding_after trade order (__shares b)) f0) eqn:Hzero;
    monadic; rewrite ?lookup_insert_eq; monadic;
    rewrite ?delete_insert_eq;
    (destruct (broker.isActive order); cbn [negb]; monadic;
     [now split|]);
    (destruct (__activeOrders b !! broker.getId order); monadic; now split).
Qed.

Lemma shares_after_no_zero trade order (shares : gmap string F) :
  (forall instrument quantity,
     shares !! instrument = Some quantity -> feqb quantity f0 = false) ->
  forall instrument quantity,
    shares_after trade order shares !! instrument = Some quantity ->
    feqb quantity f0 = false.
Proof.
  intros Hshares instrument quantity. unfold shares_after.
  destruct (feqb (holding_after trade order shares) f0) eqn:Hzero.
  - rewrite lookup_delete. destruct (decide (btc_symbol = instrument));
      [discriminate|]. apply Hshares.
  - rewrite lookup_insert. destruct (decide (btc_symbol = instrument)).
    + intros [= <-]. exact Hzero.
    + apply Hshares.
Qed.

(** Applying a trade never leaves a holding equal to zero behind. *)
Lemma _onUserTrades_body_no_zero_holding trade b :
  no_zero_holding b ->
  no_zero_holding (state_after (_onUserTrades_body trade b)).
Proof.
  intros Hinv.
  destruct (__activeOrders b !! ut_getOrderId trade) as [order|] eqn:Hsome.
  - destruct (_onUserTrades_body_tracked trade order b Hsome) as [_ Hshares].
    unfold no_zero_holding. rewrite Hshares.
    now apply shares_after_no_zero.
  - rewrite _onUserTrades_body_unknown by exact Hsome. exact Hinv.
Qed.

Lemma _onUserTrades_no_zero_holding (trades : list (UserTrade F)) b :
  no_zero_holding b ->
  no_zero_holding (state_after (_onUserTrades trades b)).
Proof.
  revert b. unfold _onUserTrades.
  induction trades as [|trade rest IH]; intros b Hinv; [exact Hinv|].
  cbn [for_each]. unfold bind.
  pose proof (_onUserTrades_body_no_zero_holding trade b Hinv) as Hstep.
  destruct (_onUserTrades_body trade b) as [[[]|e] b1]; [|exact Hstep].
  apply IH. exact Hstep.
Qed.

Lemma getShares_absent instrument b :
  __shares b !! instrument = None -> getShares instrument b = f0.
Proof. intros Hnone. unfold getShares. now rewrite Hnone. Qed.

End Broker.

Section BrokerClaims.
Context {F : Type} `{PyFloat F} `{Common F}.
Implicit Types (b : LiveBroker.t F) (trade : UserTrade F).
Implicit Types (order : broker.Order F).

Import LiveBroker.


(** C6. For every trade applied to a tracked order, the new cash balance
    is [round(previousCash + usdAmount - fee, 2)]: after the trade, the
    cash held is a value rounded to two decimal places. *)
Theorem cash_is_rounded_after_trade trade order b :
  __activeOrders b !! ut_getOrderId trade = Some order ->
  __cash (state_after (_onUserTrades_body trade b))
  = fround (fsub (fadd (__cash b) (ut_getUSD trade)) (ut_getFee trade)) 2.
Proof.
  intros Hsome.
  now destruct (_onUserTrades_body_tracked trade order b Hsome) as [Hcash _].
Qed.

(** C8. A trade whose order identifier is not in the active-orders map
    changes neither the cash, nor the holdings, nor the active orders,
    emits no order event, and only writes an informational log entry. *)
Theorem unknown_order_trade_only_logs trade b :
  __activeOrders b !! ut_getOrderId trade = None ->
  let entry :=
    info_trade_refered_to_inactive_order
      (ut_getId trade) (ut_getOrderId trade) in
  let b' := state_after (_onUserTrades [trade] b) in
  _onUserTrades [trade] b = (Ok tt, logged entry b) /\
  __cash b' = __cash b /\
  __shares b' = __shares b /\
  __activeOrders b' = __activeOrders b /\
  events b' = events b /\
  log b' = log b ++ [entry] /\
  is_info entry = true.
Proof.
  intros Hnone entry b'.
  assert (Hrun : _onUserTrades [trade] b = (Ok tt, logged entry b)).
  { unfold _onUserTrades. cbn [for_each]. unfold bind.
    rewrite _onUserTrades_body_unknown by exact Hnone. reflexivity. }
  unfold b'. rewrite Hrun. repeat split.
Qed.

(** C2. If the cancel call to the exchange raises, [cancelOrder] raises
    the same exception and the local state is as before: the active-orders
    map is unchanged (the order is still in it if it was), the order is
    not put in the Canceled state, and no order event is emitted. *)
Theorem cancelOrder_exchange_failure order b e :
  http_cancelOrder (__httpClient b) (broker.getId order) = Raise e ->
  let r := cancelOrder (order, b) in
  outcome r = Raise e /\
  fst (state_after r) = order /\
  __activeOrders (snd (state_after r)) = __activeOrders b /\
  events (snd (state_after r)) = events b /\
  __cash (snd (state_after r)) = __cash b /\
  __shares (snd (state_after r)) = __shares b /\
  __stop (snd (state_after r)) = __stop b.
Proof.
  intros Hfail r. unfold r, cancelOrder. monadic.
  rewrite Hfail. monadic. repeat split.
Qed.

(** C10. For an order whose identifier is not in the active-orders map,
    [cancelOrder] first sends the cancel request to the exchange and only
    then, the request having been answered, raises a [KeyError] on deleting
    the local entry (should the request itself fail, its exception is the
    one raised); either way the cancellation has been requested, the order
    is not put in the Canceled state and no order event is emitted. *)
Theorem cancelOrder_unknown_order order b :
  __activeOrders b !! broker.getId order = None ->
  let r := cancelOrder (order, b) in
  (http_cancelOrder (__httpClient b) (broker.getId order) = Ok tt ->
   outcome r = Raise (KeyError (inl (broker.getId order)))) /\
  (forall e,
     http_cancelOrder (__httpClient b) (broker.getId order) = Raise e ->
     outcome r = Raise e) /\
  requests (snd (state_after r))
  = requests b ++ [req_cancelOrder (broker.getId order)] /\
  fst (state_after r) = order /\
  events (snd (state_after r)) = events b /\
  __activeOrders (snd (state_after r)) = __activeOrders b.
Proof.
  intros Hnone r. unfold r, cancelOrder. monadic.
  destruct (http_cancelOrder (__httpClient b) (broker.getId order))
    as [[]|e0] eqn:Hanswer; monadic; rewrite ?Hnone; monadic.
  - repeat split. intros e [=].
  - repeat split; [intros [=]|]. now intros e [= ->].
Qed.

(** C9. The unsupported operations [submitOrder], [createMarketOrder],
    [createStopOrder], [createStopLimitOrder] and [createLimitOrder] raise
    on every input, either a rejection that says the kind of order is not
    supported or [NotImplementedError], and leave the broker as it was. *)
Theorem unsupported_operations_raise b :
  (forall order,
     submitOrder order b = (Raise NotImplementedError, b)) /\
  (forall action instrument quantity onClose,
     createMarketOrder action instrument quantity onClose b
     = (Raise (Exception "Market orders are not supported"), b)) /\
  (forall action instrument stopPrice quantity,
     createStopOrder action instrument stopPrice quantity b
     = (Raise (Exception "Stop orders are not supported"), b)) /\
  (forall action instrument stopPrice limitPrice quantity,
     createStopLimitOrder action instrument stopPrice limitPrice quantity b
     = (Raise (Exception "Stop limit orders are not supported"), b)) /\
  (forall action instrument limitPrice quantity,
     createLimitOrder action instrument limitPrice quantity b
     = (Raise NotImplementedError, b)).
Proof. repeat split. Qed.

End BrokerClaims.

Section BrokerStart.
Context {F : Type} `{PyFloat F} `{Common F}.
Implicit Types (b : LiveBroker.t F).

Import LiveBroker.


Lemma refreshAccountBalance_halts b :
  halted_like b (refreshAccountBalance b).
Proof.
  unfold halted_like, refreshAccountBalance. monadic.
  destruct (getAccountBalance (__httpClient b)) as [balance|e0]; monadic.
  - split; [reflexivity|]. intros e [=].
  - split; reflexivity.
Qed.

(** The loop of [refreshOpenOrders] only writes the active orders. *)
Lemma refreshOpenOrders_body_frame (openOrder : OpenOrder F) b :
  let r := refreshOpenOrders_body openOrder b in
  __stop (state_after r) = __stop b /\
  __tradeMonitor (state_after r) = __tradeMonitor b.
Proof.
  unfold refreshOpenOrders_body. monadic.
  destruct (build_order_from_open_order openOrder
              (getInstrumentTraits btc_symbol)) as [order|e];
    split; reflexivity.
Qed.

Lemma refreshOpenOrders_loop (openOrders : list (OpenOrder F)) b :
  let r := for_each openOrders refreshOpenOrders_body b in
  __stop (state_after r) = __stop b /\
  __tradeMonitor (state_after r) = __tradeMonitor b.
Proof.
  cbv zeta. revert b.
  induction openOrders as [|openOrder rest IH]; intros b.
  - split; reflexivity.
  - cbn [for_each]. unfold bind.
    destruct (refreshOpenOrders_body_frame openOrder b) as [Hstop Htm].
    destruct (refreshOpenOrders_body openOrder b) as [[[]|e] b1];
      cbn [state_after snd] in *.
    + destruct (IH b1) as [Hstop1 Htm1]. split; congruence.
    + split; assumption.
Qed.

Lemma refreshOpenOrders_halts b :
  halted_like b (refreshOpenOrders b).
Proof.
  unfold halted_like, refreshOpenOrders. monadic.
  destruct (getOpenOrders (__httpClient b)) as [openOrders|e0]; monadic.
  - pose proof (refreshOpenOrders_loop openOrders
                  (sent req_getOpenOrders
                     (logged info_retrieving_open_orders (set_stop true b))))
      as Hloop.
    cbv zeta in Hloop.
    destruct (for_each openOrders refreshOpenOrders_body _) as [[[]|e1] b1];
      monadic; cbn [state_after snd __stop __tradeMonitor] in Hloop;
      destruct Hloop as [Hstop Htm].
    + split; [exact Htm|]. intros e [=].
    + split; [exact Htm|]. intros e _. exact Hstop.
  - split; reflexivity.
Qed.

(** C4. If the balance refresh or the open-order refresh of [start()]
    raises, then [start()] raises that exception, the trade monitor is
    left as it was (its thread is not started and no trade is fetched),
    and afterwards [eof()] is true. *)
Theorem start_failure_halts_the_broker b e :
  outcome (refreshAccountBalance b) = Raise e \/
  (outcome (refreshAccountBalance b) = Ok tt /\
   outcome (refreshOpenOrders (state_after (refreshAccountBalance b)))
   = Raise e) ->
  let r := start b in
  outcome r = Raise e /\
  eof (state_after r) = true /\
  __tradeMonitor (state_after r) = __tradeMonitor b /\
  TradeMonitor.alive (__tradeMonitor (state_after r))
  = TradeMonitor.alive (__tradeMonitor b).
Proof.
  intros Hfail r.
  assert (Hgoal : outcome r = Raise e /\ eof (state_after r) = true /\
                  __tradeMonitor (state_after r) = __tradeMonitor b).
  { unfold r, start, eof, bind.
    destruct (refreshAccountBalance_halts b) as [Htm1 Hstop1].
    destruct (refreshAccountBalance b) as [[[]|e1] b1];
      cbn [outcome state_after fst snd] in *.
    - destruct Hfail as [[=]|[_ Hfail]].
      destruct (refreshOpenOrders_halts b1) as [Htm2 Hstop2].
      destruct (refreshOpenOrders b1) as [[[]|e2] b2];
        cbn [outcome state_after fst snd] in *; [discriminate|].
      injection Hfail as ->. rewrite (Hstop2 e eq_refl), Htm2, Htm1.
      repeat split.
    - destruct Hfail as [[= ->]|[[=] _]]. rewrite (Hstop1 e eq_refl), Htm1.
      repeat split. }
  destruct Hgoal as (Hraise & Heof & Htm). rewrite Htm.
  repeat split; assumption.
Qed.

End BrokerStart.

Section BrokerFills.
Context {F : Type} `{PyFloat F} `{Common F}.
Implicit Types (b : LiveBroker.t F) (trade : UserTrade F).
Implicit Types (order : broker.Order F).

Import LiveBroker.

(** An execution that leaves the order below its full quantity: the order
    stays in the active orders and the event is PartiallyFilled. *)
Lemma _onUserTrades_body_partial_fill trade order b :
  __activeOrders b !! ut_getOrderId trade = Some order ->
  broker.isActive order = true ->
  fltb (fadd (broker.getFilled order) (fabs (ut_getBTC trade)))
    (broker.getOrderQuantity order) = true ->
  let r := _onUserTrades_body trade b in
  let order' := broker.addExecutionInfo (execution_of trade) order in
  outcome r = Ok tt /\
  broker.getState order' = State.PARTIALLY_FILLED /\
  __activeOrders (state_after r) !! ut_getOrderId trade = Some order' /\
  events (state_after r) = events b ++ [event_of trade order] /\
  broker.getEventType (event_of trade order)
  = OrderEventType.PARTIALLY_FILLED.
Proof.
  intros Hsome Hactive Hbelow r order'.
  unfold r. rewrite (_onUserTrades_body_active _ _ _ Hsome Hactive).
  cbn [outcome state_after fst snd __activeOrders events notified
       set_activeOrders].
  rewrite lookup_insert_eq.
  assert (Hstate : broker.getState order' = State.PARTIALLY_FILLED).
  { unfold order', broker.addExecutionInfo, execution_of.
    cbn [broker.getState broker.getQuantity]. now rewrite Hbelow. }
  repeat split; [exact Hstate|].
  unfold event_of. cbn [broker.getEventType]. fold order'.
  unfold broker.isFilled. now rewrite Hstate.
Qed.

(** An execution that brings the order to its full quantity: the order
    becomes Filled and the event is Filled, but the order, which was
    active when [isActive] was consulted, is still in the active
    orders. *)
Lemma _onUserTrades_body_full_fill trade order b :
  __activeOrders b !! ut_getOrderId trade = Some order ->
  broker.isActive order = true ->
  fltb (fadd (broker.getFilled order) (fabs (ut_getBTC trade)))
    (broker.getOrderQuantity order) = false ->
  let r := _onUserTrades_body trade b in
  let order' := broker.addExecutionInfo (execution_of trade) order in
  outcome r = Ok tt /\
  broker.getState order' = State.FILLED /\
  __activeOrders (state_after r) !! ut_getOrderId trade = Some order' /\
  events (state_after r) = events b ++ [event_of trade order] /\
  broker.getEventType (event_of trade order) = OrderEventType.FILLED.
Proof.
  intros Hsome Hactive Hfull r order'.
  unfold r. rewrite (_onUserTrades_body_active _ _ _ Hsome Hactive).
  cbn [outcome state_after fst snd __activeOrders events notified
       set_activeOrders].
  rewrite lookup_insert_eq.
  assert (Hstate : broker.getState order' = State.FILLED).
  { unfold order', broker.addExecutionInfo, execution_of.
    cbn [broker.getState broker.getQuantity]. now rewrite Hfull. }
  repeat split; [exact Hstate|].
  unfold event_of. cbn [broker.getEventType]. fold order'.
  unfold broker.isFilled. now rewrite Hstate.
Qed.

(** A full refresh stores the balance of the exchange as it is. *)
Lemma refreshAccountBalance_shares b balance :
  getAccountBalance (__httpClient b) = Ok balance ->
  let r := refreshAccountBalance b in
  outcome r = Ok tt /\
  __shares (state_after r) = {[ btc_symbol := getBTCAvailable balance ]} /\
  __cash (state_after r) = fround (getUSDAvailable balance) 2.
Proof.
  intros Hbalance. unfold refreshAccountBalance, http, logger, bind, gets,
    modify, lift, ret.
  cbn [__httpClient sent logged set_stop]. rewrite Hbalance.
  repeat split.
Qed.

(** So a balance without BTC leaves a holding equal to zero behind. *)
Lemma refreshAccountBalance_zero_holding b balance :
  getAccountBalance (__httpClient b) = Ok balance ->
  feqb (getBTCAvailable balance) f0 = true ->
  ~ no_zero_holding (state_after (refreshAccountBalance b)).
Proof.
  intros Hbalance Hzero Hinv.
  destruct (refreshAccountBalance_shares b balance Hbalance)
    as (_ & Hshares & _).
  specialize (Hinv btc_symbol (getBTCAvailable balance)).
  rewrite Hshares, lookup_singleton_eq in Hinv.
  specialize (Hinv eq_refl). congruence.
Qed.

End BrokerFills.

(** ** The program on concrete inputs *)

Import Example Decimal.

(** C1, at the scenario of the specification (1000.00 USD, no BTC, open
    order O1 to buy 1.0 BTC at 100, then T1 and T2).  After T2 the order
    has been filled up to its full quantity, it is in the Filled state and
    the event is Filled, the cash is 899.75 and the holding 1.0 BTC; yet
    the order is still in the active-orders map: it is not removed during
    the processing of the trade that fills it. *)
Theorem filled_order_is_left_in_active_orders :
  let r := LiveBroker._onUserTrades [T1; T2] started in
  let b := state_after r in
  outcome r = Ok tt /\
  List.map broker.getEventType (LiveBroker.events b)
  = [OrderEventType.PARTIALLY_FILLED; OrderEventType.FILLED] /\
  LiveBroker.getCash true b = dec 89975 2 /\
  LiveBroker.getShares btc_symbol b = dec 1 0 /\
  option_map broker.getState (LiveBroker.__activeOrders b !! 1)
  = Some State.FILLED /\
  option_map broker.getFilled (LiveBroker.__activeOrders b !! 1)
  = option_map broker.getOrderQuantity (LiveBroker.__activeOrders b !! 1) /\
  List.map broker.getId (LiveBroker.getActiveOrders None b) = [1].
Proof. vm_compute. repeat split. Qed.

(** C5, at the balance of the scenario of the specification (1000.00 USD,
    no BTC).  After the full balance refresh the holdings map has an entry
    for the instrument whose quantity is exactly zero. *)
Theorem refresh_stores_a_zero_holding :
  let r :=
    LiveBroker.refreshAccountBalance
      (LiveBroker.__init__ (exchange (dec 1000 0) (dec 0 0) [O1] [])) in
  outcome r = Ok tt /\
  LiveBroker.__shares (state_after r) !! btc_symbol = Some (dec 0 0) /\
  feqb (dec 0 0) f0 = true /\
  ~ no_zero_holding (state_after r).
Proof.
  split; [reflexivity|]. split; [reflexivity|]. split; [reflexivity|].
  intros Hinv. specialize (Hinv btc_symbol (dec 0 0) eq_refl).
  discriminate Hinv.
Qed.

(** The first half of that scenario: after T1 the cash is 959.90, the
    holding 0.4 BTC, and O1 is partially filled and active. *)
Example scenario_after_T1 :
  let b := state_after (LiveBroker._onUserTrades [T1] started) in
  LiveBroker.getCash true b = dec 95990 2 /\
  LiveBroker.getShares btc_symbol b = dec 4 1 /\
  List.map broker.getEventType (LiveBroker.events b)
  = [OrderEventType.PARTIALLY_FILLED] /\
  option_map broker.getState (LiveBroker.__activeOrders b !! 1)
  = Some State.PARTIALLY_FILLED.
Proof. vm_compute. repeat split. Qed.

(** Why the feed has to list the newest trade first: shown T1 before T2,
    the poller publishes the newer trade first and keeps the identifier of
    T1 as its watermark. *)
Example unordered_feed :
  let tm := after_run [Ok [T1; T2]] TradeMonitor.__init__ in
  TradeMonitor.__lastTradeId tm = 11 /\
  TradeMonitor.__queue tm = [(TradeMonitor.ON_USER_TRADE, [T2; T1])].
Proof. vm_compute. repeat split. Qed.

(** ** Witnesses *)

Lemma watermark_is_greatest_trade_id_seen_witness :
  (TradeMonitor.__stop (@TradeMonitor.__init__ Q) = false /\
   Forall answer_newest_first feed /\
   newest_first [T_full; T2; T1]) /\
  TradeMonitor.__lastTradeId (after_run feed TradeMonitor.__init__) = 12 /\
  TradeMonitor.__queue
    (after_run (feed ++ [Ok [T_full; T2; T1]]) TradeMonitor.__init__)
  = [(TradeMonitor.ON_USER_TRADE, [T1]); (TradeMonitor.ON_USER_TRADE, [T2]);
     (TradeMonitor.ON_USER_TRADE, [T_full])].
Proof.
  assert (Hstop : TradeMonitor.__stop (@TradeMonitor.__init__ Q) = false)
    by reflexivity.
  assert (Hfeed : Forall answer_newest_first feed).
  { repeat constructor; vm_compute; discriminate. }
  assert (Hsorted : newest_first [T_full; T2; T1]).
  { repeat constructor; vm_compute; discriminate. }
  split; [auto|].
  destruct (watermark_is_greatest_trade_id_seen feed [T_full; T2; T1]
              TradeMonitor.__init__ Hstop)
    as (_ & _ & Hmax & Hqueue).
  destruct (Hmax Hfeed) as (Hmax' & _). clear Hmax.
  destruct (Hqueue Hsorted) as (Hqueue' & _). clear Hqueue.
  rename Hmax' into Hmax, Hqueue' into Hqueue.
  split.
  - rewrite Hmax. reflexivity.
  - rewrite Hqueue. reflexivity.
Defined.

Lemma fetch_failure_is_logged_and_skipped_witness :
  TradeMonitor.__stop (@TradeMonitor.__init__ Q) = false /\
  TradeMonitor.log
    (cycle (Raise (IOError "timed out")) (@TradeMonitor.__init__ Q))
  = [critical_error_retrieving_user_transactions (IOError "timed out")] /\
  TradeMonitor.run (Raise (IOError "timed out") :: [Ok [T1]])
    TradeMonitor.__init__
  = TradeMonitor.run [Ok [T1]]
      (cycle (Raise (IOError "timed out")) TradeMonitor.__init__).
Proof.
  split; [reflexivity|].
  destruct (fetch_failure_is_logged_and_skipped (IOError "timed out")
              [Ok [T1]] (@TradeMonitor.__init__ Q) eq_refl)
    as (_ & Hlog & _ & _ & _ & _ & Hnext & _).
  split; [exact Hlog|exact Hnext].
Defined.

Lemma cash_is_rounded_after_trade_witness :
  LiveBroker.__activeOrders started !! ut_getOrderId T1 = Some order_O1 /\
  LiveBroker.__cash (state_after (LiveBroker._onUserTrades_body T1 started))
  = dec 95990 2.
Proof.
  assert (Hsome : LiveBroker.__activeOrders started !! ut_getOrderId T1
                  = Some order_O1) by reflexivity.
  split; [exact Hsome|].
  rewrite (cash_is_rounded_after_trade T1 order_O1 started Hsome).
  reflexivity.
Defined.

Lemma unknown_order_trade_only_logs_witness :
  LiveBroker.__activeOrders started !! ut_getOrderId T77 = None /\
  LiveBroker.events (state_after (LiveBroker._onUserTrades [T77] started))
  = [] /\
  LiveBroker.__cash (state_after (LiveBroker._onUserTrades [T77] started))
  = dec 1000 0.
Proof.
  assert (Hnone : LiveBroker.__activeOrders started !! ut_getOrderId T77
                  = None) by reflexivity.
  split; [exact Hnone|].
  destruct (unknown_order_trade_only_logs T77 started Hnone)
    as (_ & Hcash & _ & _ & Hevents & _).
  split; [rewrite Hevents|rewrite Hcash]; reflexivity.
Defined.

Lemma cancelOrder_exchange_failure_witness :
  http_cancelOrder (LiveBroker.__httpClient started_rejecting)
    (broker.getId order_O1)
  = Raise (IOError "connection refused") /\
  outcome (LiveBroker.cancelOrder (order_O1, started_rejecting))
  = Raise (IOError "connection refused") /\
  LiveBroker.__activeOrders
    (snd (state_after (LiveBroker.cancelOrder (order_O1, started_rejecting))))
  !! 1 = Some order_O1.
Proof.
  assert (Hfail : http_cancelOrder (LiveBroker.__httpClient started_rejecting)
                    (broker.getId order_O1)
                  = Raise (IOError "connection refused")) by reflexivity.
  split; [exact Hfail|].
  destruct (cancelOrder_exchange_failure order_O1 started_rejecting _ Hfail)
    as (Hraise & _ & Hactive & _).
  split; [exact Hraise|]. rewrite Hactive. reflexivity.
Defined.

Lemma cancelOrder_unknown_order_witness :
  LiveBroker.__activeOrders started !! broker.getId order_77 = None /\
  outcome (LiveBroker.cancelOrder (order_77, started))
  = Raise (KeyError (inl 77)) /\
  LiveBroker.requests
    (snd (state_after (LiveBroker.cancelOrder (order_77, started))))
  = [req_getAccountBalance; req_getOpenOrders; req_getUserTransactions;
     req_cancelOrder 77].
Proof.
  assert (Hnone : LiveBroker.__activeOrders started !! broker.getId order_77
                  = None) by reflexivity.
  split; [exact Hnone|].
  destruct (cancelOrder_unknown_order order_77 started Hnone)
    as (Hkey & _ & Hrequests & _).
  split; [exact (Hkey eq_refl)|]. rewrite Hrequests. reflexivity.
Defined.

Lemma start_failure_halts_the_broker_witness :
  outcome (LiveBroker.refreshAccountBalance (LiveBroker.__init__ unreachable))
  = Raise (IOError "connection refused") /\
  outcome (LiveBroker.start (LiveBroker.__init__ unreachable))
  = Raise (IOError "connection refused") /\
  LiveBroker.eof
    (state_after (LiveBroker.start (LiveBroker.__init__ unreachable))) = true /\
  TradeMonitor.alive
    (LiveBroker.__tradeMonitor
       (state_after (LiveBroker.start (LiveBroker.__init__ unreachable))))
  = false.
Proof.
  assert (Hfail : outcome (LiveBroker.refreshAccountBalance
                             (LiveBroker.__init__ unreachable))
                  = Raise (IOError "connection refused")) by reflexivity.
  split; [exact Hfail|].
  destruct (start_failure_halts_the_broker (LiveBroker.__init__ unreachable)
              _ (or_introl Hfail))
    as (Hraise & Heof & _ & Halive).
  split; [exact Hraise|]. split; [exact Heof|]. rewrite Halive. reflexivity.
Defined.

(** * Further properties *)

(** ** The trade monitor *)

Section PollerFurther.
Context {F : Type}.
Implicit Types (tm : TradeMonitor.t F) (userTrades : list (UserTrade F)).
Implicit Types (fetches : list (Result (list (UserTrade F)))).

Import TradeMonitor.

Lemma collect_new_at_watermark userTrades tm :
  collect_new (__lastTradeId (cycle (Ok userTrades) tm)) userTrades = [].
Proof.
  unfold cycle. destruct userTrades as [|newest rest]; [reflexivity|].
  destruct (collect_new (__lastTradeId tm) (newest :: rest))
    as [|first others] eqn:Hnew.
  - rewrite (run_iteration_Ok_nothing_new _ _ Hnew). exact Hnew.
  - rewrite (run_iteration_Ok_new _ _ _ _ Hnew). cbn in Hnew |- *.
    destruct (Z.ltb_spec (__lastTradeId tm) (ut_getId newest));
      [|discriminate].
    injection Hnew as <- _. now rewrite Z.ltb_irrefl.
Qed.

(** X1. Whatever the order of the answer, the watermark after an iteration
    is the greater of the previous watermark and the identifier of the
    first trade of the answer; the other trades do not count. *)
Theorem cycle_watermark_follows_first_trade userTrades tm :
  __lastTradeId (cycle (Ok userTrades) tm)
  = match userTrades with
    | [] => __lastTradeId tm
    | newest :: _ => Z.max (__lastTradeId tm) (ut_getId newest)
    end.
Proof.
  unfold cycle. destruct userTrades as [|newest rest]; [reflexivity|].
  destruct (collect_new (__lastTradeId tm) (newest :: rest))
    as [|first others] eqn:Hnew.
  - rewrite (run_iteration_Ok_nothing_new _ _ Hnew). cbn in Hnew |- *.
    destruct (Z.ltb_spec (__lastTradeId tm) (ut_getId newest));
      [discriminate|lia].
  - rewrite (run_iteration_Ok_new _ _ _ _ Hnew). cbn in Hnew |- *.
    destruct (Z.ltb_spec (__lastTradeId tm) (ut_getId newest));
      [|discriminate].
    injection Hnew as <- _. lia.
Qed.

(** X2. An answer fetched a second time publishes nothing: the iteration
    that sees again what the previous one saw leaves the queue and the
    watermark as they are. *)
Theorem same_answer_again_publishes_nothing userTrades tm :
  let tm1 := cycle (Ok userTrades) tm in
  __queue (cycle (Ok userTrades) tm1) = __queue tm1 /\
  __lastTradeId (cycle (Ok userTrades) tm1) = __lastTradeId tm1 /\
  log (cycle (Ok userTrades) tm1) = log tm1.
Proof.
  intros tm1.
  assert (Hagain : cycle (Ok userTrades) tm1 = sleep POLL_FREQUENCY tm1).
  { unfold cycle at 1.
    now rewrite (run_iteration_Ok_nothing_new userTrades tm1
                   (collect_new_at_watermark userTrades tm)). }
  rewrite Hagain. repeat split.
Qed.



(** X4. Whatever it is answered, and stopped or not, the loop only ever
    appends to the queue, at most one item for each iteration, and every
    item it appends is a user-trade event with a batch that is not
    empty. *)
Theorem published_items_are_nonempty_user_trades fetches tm :
  exists items,
    __queue (after_run fetches tm) = __queue tm ++ items /\
    (length items <= length fetches)%nat /\
    forall item,
      In item items -> fst item = ON_USER_TRADE /\ snd item <> [].
Proof.
  revert tm. induction fetches as [|answer rest IH]; intros tm.
  - exists []. split; [unfold after_run; simpl; now rewrite List.app_nil_r|].
    split; [simpl; lia|]. intros ? [].
  - destruct (__stop tm) eqn:Hstop.
    + exists []. unfold after_run. cbn [run]. unfold bind at 1, gets.
      rewrite Hstop. cbn. split; [now rewrite List.app_nil_r|].
      split; [lia|]. intros ? [].
    + rewrite after_run_cons by exact Hstop.
      destruct (IH (cycle answer tm)) as (items & Hitems & Hlen & Hall).
      destruct (cycle_queue answer tm) as (batch & Hqueue & _).
      exists (published batch ++ items). split; [|split].
      * rewrite Hitems, Hqueue. now rewrite <- List.app_assoc.
      * rewrite List.length_app. destruct batch; simpl; lia.
      * intros item Hin. apply List.in_app_or in Hin.
        destruct Hin as [Hin|Hin]; [|auto].
        destruct batch; [destruct Hin|]. destruct Hin as [<-|[]].
        split; [reflexivity|discriminate].
Qed.

(** X5. A loop that is not stopped sleeps once in every iteration, whether
    the fetch was answered or failed; a stopped loop does not sleep. *)
Theorem run_sleeps_once_per_iteration fetches tm :
  clock (after_run fetches tm)
  = clock tm
    + (if __stop tm then 0 else POLL_FREQUENCY * Z.of_nat (length fetches)).
Proof.
  destruct (__stop tm) eqn:Hstop.
  - destruct fetches as [|answer rest]; unfold after_run; cbn [run].
    + cbn. lia.
    + unfold bind at 1, gets. rewrite Hstop. cbn. lia.
  - revert tm Hstop. induction fetches as [|answer rest IH]; intros tm Hstop.
    + unfold after_run. cbn. lia.
    + rewrite after_run_cons by exact Hstop.
      rewrite IH by now rewrite cycle_stop.
      assert (Hclock : clock (cycle answer tm) = clock tm + POLL_FREQUENCY).
      { unfold cycle. destruct answer as [userTrades|e]; [|reflexivity].
        destruct (collect_new (__lastTradeId tm) userTrades)
          as [|newest others] eqn:Hnew.
        - now rewrite (run_iteration_Ok_nothing_new _ _ Hnew).
        - now rewrite (run_iteration_Ok_new _ _ _ _ Hnew). }
      rewrite Hclock. cbn [length]. lia.
Qed.

(** Once [stop] has been called, [run] returns at its next test of the
    flag. *)
Lemma run_stopped fetches tm :
  __stop tm = true -> run fetches tm = (Ok tt, tm).
Proof.
  intros Hstop. destruct fetches as [|answer rest]; [reflexivity|].
  cbn [run]. unfold bind at 1, gets. now rewrite Hstop.
Qed.

End PollerFurther.

(** ** Loops *)

Section Loops.
Context {S A : Type}.
Implicit Types (body : A -> M S unit) (xs ys : list A) (s : S).

(** A loop over [xs ++ ys] is the loop over [xs], then, unless it raised,
    the loop over [ys]. *)
Lemma for_each_app xs ys body s :
  for_each (xs ++ ys) body s
  = match for_each xs body s with
    | (Ok _, s') => for_each ys body s'
    | (Raise e, s') => (Raise e, s')
    end.
Proof.
  revert s. induction xs as [|x rest IH]; intros s; [reflexivity|].
  cbn [for_each app]. unfold bind.
  destruct (body x s) as [[[]|e] s1]; [apply IH|reflexivity].
Qed.

(** What every iteration keeps, the loop keeps, however it ends. *)
Lemma for_each_invariant (P : S -> Prop) xs body s :
  (forall x s0, P s0 -> P (state_after (body x s0))) ->
  P s -> P (state_after (for_each xs body s)).
Proof.
  intros Hbody. revert s. induction xs as [|x rest IH]; intros s Hs;
    [exact Hs|].
  cbn [for_each]. unfold bind.
  specialize (Hbody x s Hs).
  destruct (body x s) as [[[]|e] s1]; cbn [state_after snd] in *.
  - now apply IH.
  - exact Hbody.
Qed.

(** The same, for a relation between the state before and after. *)
Lemma for_each_related (R : S -> S -> Prop) xs body s :
  (forall s0, R s0 s0) ->
  (forall s0 s1 s2, R s0 s1 -> R s1 s2 -> R s0 s2) ->
  (forall x s0, R s0 (state_after (body x s0))) ->
  R s (state_after (for_each xs body s)).
Proof.
  intros Hrefl Htrans Hbody.
  apply (for_each_invariant (R s)); [|apply Hrefl].
  intros x s0 Hs0. exact (Htrans _ _ _ Hs0 (Hbody x s0)).
Qed.

End Loops.

(** ** Orders built from open orders *)

Section BuildOrderFurther.
Context {F : Type} `{PyFloat F} `{Common F}.
Implicit Types (openOrder : OpenOrder F).
Implicit Types (traits : broker.InstrumentTraits F) (order : broker.Order F).

Lemma build_order_from_open_order_Ok openOrder traits order :
  build_order_from_open_order openOrder traits = Ok order ->
  has_side openOrder = true /\
  broker.getId order = oo_getId openOrder /\
  broker.getState order = State.ACCEPTED.
Proof.
  unfold build_order_from_open_order, has_side.
  destruct (oo_isBuy openOrder), (oo_isSell openOrder);
    intros [= <-]; repeat split.
Qed.

Lemma build_order_from_open_order_has_side openOrder traits :
  has_side openOrder = true ->
  exists order, build_order_from_open_order openOrder traits = Ok order.
Proof.
  unfold build_order_from_open_order, has_side.
  destruct (oo_isBuy openOrder), (oo_isSell openOrder);
    intros [=]; eexists; reflexivity.
Qed.

Lemma build_order_from_open_order_no_side openOrder traits :
  has_side openOrder = false ->
  build_order_from_open_order openOrder traits
  = Raise (Exception "Invalid order type").
Proof.
  unfold build_order_from_open_order, has_side.
  destruct (oo_isBuy openOrder), (oo_isSell openOrder);
    intros [=]; reflexivity.
Qed.

(** X6. The order built from an open order that is a buy or a sell order
    carries the identifier, the price, the amount and the date of the open
    order and the traits it was given, trades the BTC instrument, is in
    the Accepted state, and is a buy order whenever the open order says it
    is one, even if it also says it is a sell order. *)
Theorem built_order_is_accepted_open_order openOrder traits order :
  build_order_from_open_order openOrder traits = Ok order ->
  broker.getId order = oo_getId openOrder /\
  broker.getAction order
  = (if oo_isBuy openOrder then Action.BUY else Action.SELL) /\
  broker.getInstrument order = btc_symbol /\
  broker.getLimitPrice order = oo_getPrice openOrder /\
  broker.getOrderQuantity order = oo_getAmount openOrder /\
  broker.getInstrumentTraits order = traits /\
  broker.getSubmitDateTime order = Some (oo_getDateTime openOrder) /\
  broker.getState order = State.ACCEPTED.
Proof.
  unfold build_order_from_open_order.
  destruct (oo_isBuy openOrder), (oo_isSell openOrder);
    intros [= <-]; repeat split.
Qed.


End BuildOrderFurther.

(** ** Refreshing the account and the open orders *)

Section RefreshFurther.
Context {F : Type} `{PyFloat F} `{Common F}.
Implicit Types (b : LiveBroker.t F) (openOrder : OpenOrder F).
Implicit Types (openOrders : list (OpenOrder F)).

Import LiveBroker.

(** X8. After a balance refresh that the exchange answered, [getCash] is
    the USD balance rounded to two decimals, [getShares] is the BTC
    balance for the BTC instrument and 0 for every other instrument
    (whatever was held before is forgotten), and [eof] is false; the
    active orders are not touched. *)
Theorem refreshed_balance_is_what_accessors_return b balance :
  getAccountBalance (__httpClient b) = Ok balance ->
  let r := refreshAccountBalance b in
  outcome r = Ok tt /\
  (forall includeShort,
     getCash includeShort (state_after r)
     = fround (getUSDAvailable balance) 2) /\
  getShares btc_symbol (state_after r) = getBTCAvailable balance /\
  (forall instrument,
     instrument <> btc_symbol -> getShares instrument (state_after r) = f0) /\
  eof (state_after r) = false /\
  __activeOrders (state_after r) = __activeOrders b /\
  requests (state_after r) = requests b ++ [req_getAccountBalance].
Proof.
  intros Hbalance r. unfold r, refreshAccountBalance. monadic.
  rewrite Hbalance. monadic. unfold getCash, getShares, eof. cbn.
  repeat split.
  - now rewrite lookup_singleton_eq.
  - intros instrument Hother. rewrite lookup_singleton_ne by congruence.
    reflexivity.
Qed.

(** X9. A balance refresh that the exchange fails raises what the call
    raised and updates nothing: the cash, the holdings and the active
    orders are those of before; only the stop flag is left set. *)
Theorem failed_balance_refresh_keeps_the_account b e :
  getAccountBalance (__httpClient b) = Raise e ->
  let r := refreshAccountBalance b in
  outcome r = Raise e /\
  __cash (state_after r) = __cash b /\
  __shares (state_after r) = __shares b /\
  __activeOrders (state_after r) = __activeOrders b /\
  events (state_after r) = events b /\
  eof (state_after r) = true.
Proof.
  intros Hfail r. unfold r, refreshAccountBalance. monadic.
  rewrite Hfail. repeat split.
Qed.

Lemma refreshOpenOrders_body_Ok openOrder b order :
  build_order_from_open_order openOrder (getInstrumentTraits btc_symbol)
  = Ok order ->
  refreshOpenOrders_body openOrder b
  = (Ok tt,
     set_activeOrders (<[oo_getId openOrder := order]> (__activeOrders b)) b).
Proof.
  intros Hbuilt. unfold refreshOpenOrders_body. monadic.
  now rewrite Hbuilt.
Qed.

Lemma refreshOpenOrders_body_Raise openOrder b e :
  build_order_from_open_order openOrder (getInstrumentTraits btc_symbol)
  = Raise e ->
  refreshOpenOrders_body openOrder b = (Raise e, b).
Proof.
  intros Hbuilt. unfold refreshOpenOrders_body. monadic.
  now rewrite Hbuilt.
Qed.

(** The loop of [refreshOpenOrders] over open orders that all have a
    side. *)
Lemma refreshOpenOrders_loop_Ok openOrders b :
  (forall openOrder, In openOrder openOrders -> has_side openOrder = true) ->
  exists activeOrders,
    for_each openOrders refreshOpenOrders_body b
    = (Ok tt, set_activeOrders activeOrders b) /\
    (forall openOrder,
       In openOrder openOrders ->
       exists openOrder' order,
         In openOrder' openOrders /\
         oo_getId openOrder' = oo_getId openOrder /\
         build_order_from_open_order openOrder'
           (getInstrumentTraits btc_symbol) = Ok order /\
         activeOrders !! oo_getId openOrder = Some order) /\
    (forall key,
       (forall openOrder,
          In openOrder openOrders -> oo_getId openOrder <> key) ->
       activeOrders !! key = __activeOrders b !! key).
Proof.
  revert b. induction openOrders as [|first rest IH]; intros b Hsides.
  - exists (__activeOrders b). split; [now destruct b|].
    split; [intros ? []|reflexivity].
  - destruct (build_order_from_open_order_has_side first
                (getInstrumentTraits btc_symbol))
      as [order Hbuilt]; [apply Hsides; now left|].
    cbn [for_each]. unfold bind.
    rewrite (refreshOpenOrders_body_Ok _ _ _ Hbuilt).
    destruct (IH (set_activeOrders
                    (<[oo_getId first := order]> (__activeOrders b)) b))
      as (activeOrders & Hloop & Hin & Hout).
    { intros openOrder Hrest. apply Hsides. now right. }
    exists activeOrders. split; [exact Hloop|]. split.
    + intros openOrder [<-|Hrest].
      * destruct (List.in_dec Z.eq_dec (oo_getId first)
                    (List.map oo_getId rest)) as [Hlater|Hlast].
        -- apply List.in_map_iff in Hlater as (later & Hid & Hlater).
           destruct (Hin later Hlater)
             as (openOrder' & order' & Hin' & Hid' & Hbuilt' & Hsome).
           exists openOrder', order'.
           rewrite <- Hid. repeat split; [now right|congruence|
             exact Hbuilt'|exact Hsome].
        -- exists first, order. repeat split; [now left|exact Hbuilt|].
           rewrite Hout; [cbn; apply lookup_insert_eq|].
           intros openOrder Hrest Hid. apply Hlast.
           apply List.in_map_iff. now exists openOrder.
      * destruct (Hin openOrder Hrest)
          as (openOrder' & order' & Hin' & Hid' & Hbuilt' & Hsome).
        exists openOrder', order'. repeat split; [now right|exact Hid'|
          exact Hbuilt'|exact Hsome].
    + intros key Hfresh. rewrite Hout.
      * cbn. apply lookup_insert_ne. apply Hfresh. now left.
      * intros openOrder Hrest. apply Hfresh. now right.
Qed.

(** X10. When the exchange lists open orders that are all buy or sell
    orders, [refreshOpenOrders] returns normally with [eof] false, and
    afterwards every listed identifier is tracked, with the order built
    from an open order of that identifier (accepted, and stored under its
    own identifier); the orders tracked before under other identifiers are
    still tracked: the refresh adds to the active orders, it does not
    clear them.  Cash and holdings are not touched. *)
Theorem refreshed_open_orders_are_tracked b openOrders :
  getOpenOrders (__httpClient b) = Ok openOrders ->
  (forall openOrder, In openOrder openOrders -> has_side openOrder = true) ->
  let r := refreshOpenOrders b in
  outcome r = Ok tt /\
  eof (state_after r) = false /\
  (forall openOrder,
     In openOrder openOrders ->
     exists openOrder' order,
       In openOrder' openOrders /\
       oo_getId openOrder' = oo_getId openOrder /\
       build_order_from_open_order openOrder'
         (getInstrumentTraits btc_symbol) = Ok order /\
       __activeOrders (state_after r) !! oo_getId openOrder = Some order /\
       broker.getId order = oo_getId openOrder /\
       broker.getState order = State.ACCEPTED) /\
  (forall key,
     (forall openOrder,
        In openOrder openOrders -> oo_getId openOrder <> key) ->
     __activeOrders (state_after r) !! key = __activeOrders b !! key) /\
  __cash (state_after r) = __cash b /\
  __shares (state_after r) = __shares b.
Proof.
  intros Hanswer Hsides r. unfold r, refreshOpenOrders. monadic.
  rewrite Hanswer. monadic.
  destruct (refreshOpenOrders_loop_Ok openOrders
              (sent req_getOpenOrders
                 (logged info_retrieving_open_orders (set_stop true b)))
              Hsides)
    as (activeOrders & Hloop & Hin & Hout).
  rewrite Hloop. monadic. unfold eof. cbn.
  repeat split; [|exact Hout].
  intros openOrder Hlisted.
  destruct (Hin openOrder Hlisted)
    as (openOrder' & order & Hin' & Hid & Hbuilt & Hsome).
  exists openOrder', order.
  destruct (build_order_from_open_order_Ok _ _ _ Hbuilt)
    as (_ & Hid' & Hstate).
  repeat split; try assumption. congruence.
Qed.

(** X11. When an open order of the list is neither a buy nor a sell order,
    [refreshOpenOrders] raises "Invalid order type" and leaves [eof] true;
    the open orders listed before it have been registered by then, and no
    other identifier was touched: the refresh stops half way. *)
Theorem invalid_open_order_stops_the_refresh b before invalid after :
  getOpenOrders (__httpClient b) = Ok (before ++ invalid :: after) ->
  (forall openOrder, In openOrder before -> has_side openOrder = true) ->
  has_side invalid = false ->
  let r := refreshOpenOrders b in
  outcome r = Raise (Exception "Invalid order type") /\
  eof (state_after r) = true /\
  (forall openOrder,
     In openOrder before ->
     is_Some (__activeOrders (state_after r) !! oo_getId openOrder)) /\
  (forall key,
     (forall openOrder, In openOrder before -> oo_getId openOrder <> key) ->
     __activeOrders (state_after r) !! key = __activeOrders b !! key).
Proof.
  intros Hanswer Hsides Hinvalid r. unfold r, refreshOpenOrders. monadic.
  rewrite Hanswer. monadic. rewrite for_each_app.
  destruct (refreshOpenOrders_loop_Ok before
              (sent req_getOpenOrders
                 (logged info_retrieving_open_orders (set_stop true b)))
              Hsides)
    as (activeOrders & Hloop & Hin & Hout).
  rewrite Hloop. cbn [for_each]. unfold bind.
  assert (Hraise : build_order_from_open_order invalid
                     (getInstrumentTraits btc_symbol)
                   = Raise (Exception "Invalid order type")).
  { apply build_order_from_open_order_no_side. exact Hinvalid. }
  rewrite (refreshOpenOrders_body_Raise _ _ _ Hraise).
  unfold eof. cbn. repeat split; [|exact Hout].
  intros openOrder Hlisted.
  destruct (Hin openOrder Hlisted) as (? & order & _ & _ & _ & Hsome).
  now exists order.
Qed.

End RefreshFurther.

(** ** Trades, cancellations and the active orders *)

Section TradesFurther.
Context {F : Type} `{PyFloat F} `{Common F}.
Implicit Types (b : LiveBroker.t F) (trade : UserTrade F).
Implicit Types (trades : list (UserTrade F)) (order : broker.Order F).

Import LiveBroker.

(** A trade of an order that is tracked under its identifier and is not
    active any more. *)
Lemma _onUserTrades_body_inactive trade order b :
  __activeOrders b !! ut_getOrderId trade = Some order ->
  broker.isActive order = false ->
  broker.getId order = ut_getOrderId trade ->
  _onUserTrades_body trade b
  = (Ok tt,
     notified (event_of trade order)
       (set_activeOrders (delete (ut_getOrderId trade) (__activeOrders b))
          (set_shares (shares_after trade order (__shares b))
             (set_cash (cash_after trade (__cash b)) b)))).
Proof.
  intros Hsome Hinactive Hid. unfold _onUserTrades_body. monadic.
  rewrite Hsome. monadic. rewrite lookup_insert_eq.
  fold (holding_after trade order (__shares b)).
  fold (execution_of trade). rewrite Hinactive, Hid. cbn [negb].
  assert (Halter :
    alter (fun _ => broker.addExecutionInfo (execution_of trade) order)
      (ut_getOrderId trade)
      (delete (ut_getOrderId trade) (__activeOrders b))
    = delete (ut_getOrderId trade) (__activeOrders b)).
  { apply map_eq. intros k. rewrite lookup_alter.
    destruct (decide (ut_getOrderId trade = k)) as [<-|]; [|reflexivity].
    now rewrite lookup_delete_eq. }
  unfold shares_after, event_of.
  destruct (feqb (holding_after trade order (__shares b)) f0) eqn:Hzero.
  - monadic. rewrite lookup_insert_eq. monadic. rewrite Hsome. monadic.
    rewrite delete_insert_eq, Halter. reflexivity.
  - monadic. rewrite Hsome. monadic. rewrite Halter. reflexivity.
Qed.

Lemma _onUserTrades_body_well_keyed trade b :
  well_keyed b -> well_keyed (state_after (_onUserTrades_body trade b)).
Proof.
  intros Hkeys.
  destruct (__activeOrders b !! ut_getOrderId trade) as [order|] eqn:Hsome.
  - pose proof (Hkeys _ _ Hsome) as Hid.
    destruct (broker.isActive order) eqn:Hactive.
    + rewrite (_onUserTrades_body_active _ _ _ Hsome Hactive).
      intros key order'. cbn. rewrite lookup_insert.
      destruct (decide (ut_getOrderId trade = key)) as [<-|].
      * intros [= <-]. exact Hid.
      * apply Hkeys.
    + rewrite (_onUserTrades_body_inactive _ _ _ Hsome Hactive Hid).
      intros key order'. cbn. rewrite lookup_delete.
      destruct (decide (ut_getOrderId trade = key)); [discriminate|].
      apply Hkeys.
  - rewrite (_onUserTrades_body_unknown _ _ Hsome). exact Hkeys.
Qed.

Lemma refreshOpenOrders_body_well_keyed (openOrder : OpenOrder F) b :
  well_keyed b ->
  well_keyed (state_after (refreshOpenOrders_body openOrder b)).
Proof.
  intros Hkeys.
  destruct (build_order_from_open_order openOrder
              (getInstrumentTraits btc_symbol)) as [order|e] eqn:Hbuilt.
  - rewrite (refreshOpenOrders_body_Ok _ _ _ Hbuilt).
    destruct (build_order_from_open_order_Ok _ _ _ Hbuilt) as (_ & Hid & _).
    intros key order'. cbn. rewrite lookup_insert.
    destruct (decide (oo_getId openOrder = key)) as [<-|].
    + intros [= <-]. exact Hid.
    + apply Hkeys.
  - rewrite (refreshOpenOrders_body_Raise _ _ _ Hbuilt). exact Hkeys.
Qed.

(** X12. Every active order is stored under its own identifier: this
    holds of a new broker, and the methods that write the active orders,
    [refreshOpenOrders], [_onUserTrades] and [cancelOrder], keep it,
    whether they return or raise. *)
Theorem active_orders_stay_stored_under_their_id :
  (forall httpClient, well_keyed (__init__ httpClient)) /\
  (forall b,
     well_keyed b -> well_keyed (state_after (refreshOpenOrders b))) /\
  (forall trades b,
     well_keyed b -> well_keyed (state_after (_onUserTrades trades b))) /\
  (forall order b,
     well_keyed b ->
     well_keyed (snd (state_after (cancelOrder (order, b))))).
Proof.
  split; [|split; [|split]].
  - intros httpClient key order. cbn. now rewrite lookup_empty.
  - intros b Hkeys. unfold refreshOpenOrders. monadic.
    destruct (getOpenOrders (__httpClient b)) as [openOrders|e];
      [|exact Hkeys].
    monadic.
    pose proof (for_each_invariant well_keyed openOrders
                  refreshOpenOrders_body
                  (sent req_getOpenOrders
                     (logged info_retrieving_open_orders (set_stop true b)))
                  refreshOpenOrders_body_well_keyed Hkeys) as Hloop.
    destruct (for_each openOrders refreshOpenOrders_body _)
      as [[[]|e] b1]; exact Hloop.
  - intros trades b Hkeys. unfold _onUserTrades.
    apply for_each_invariant; [|exact Hkeys].
    intros trade b0. apply _onUserTrades_body_well_keyed.
  - intros order b Hkeys. unfold cancelOrder. monadic.
    destruct (http_cancelOrder (__httpClient b) (broker.getId order))
      as [[]|e]; [|exact Hkeys].
    monadic.
    destruct (__activeOrders b !! broker.getId order) eqn:Hsome;
      [|exact Hkeys].
    monadic. intros key order'. cbn. rewrite lookup_delete.
    destruct (decide (broker.getId order = key)); [discriminate|].
    apply Hkeys.
Qed.

Lemma untouched_by_trades_refl b : untouched_by_trades b b.
Proof. repeat split. Qed.

Lemma untouched_by_trades_trans b0 b1 b2 :
  untouched_by_trades b0 b1 -> untouched_by_trades b1 b2 ->
  untouched_by_trades b0 b2.
Proof.
  intros (Hs1 & Hc1 & Hm1 & Hr1 & Hh1) (Hs2 & Hc2 & Hm2 & Hr2 & Hh2).
  repeat split; try congruence.
  intros instrument Hother. now rewrite Hh2, Hh1.
Qed.

Lemma shares_after_other trade order (shares : gmap string F) instrument :
  instrument <> btc_symbol ->
  shares_after trade order shares !! instrument = shares !! instrument.
Proof.
  intros Hother. unfold shares_after.
  destruct (feqb (holding_after trade order shares) f0).
  - apply lookup_delete_ne. congruence.
  - apply lookup_insert_ne. congruence.
Qed.

Lemma _onUserTrades_body_untouched trade b :
  untouched_by_trades b (state_after (_onUserTrades_body trade b)).
Proof.
  destruct (__activeOrders b !! ut_getOrderId trade) as [order|] eqn:Hsome.
  - destruct (_onUserTrades_body_tracked trade order b Hsome)
      as [_ Hshares].
    unfold untouched_by_trades. rewrite Hshares.
    assert (Hrest :
      let b' := state_after (_onUserTrades_body trade b) in
      __stop b' = __stop b /\ __httpClient b' = __httpClient b /\
      __tradeMonitor b' = __tradeMonitor b /\ requests b' = requests b).
    { unfold _onUserTrades_body. monadic. rewrite Hsome. monadic.
      rewrite lookup_insert_eq.
      destruct (feqb _ f0); monadic; rewrite ?lookup_insert_eq; monadic;
        (destruct (broker.isActive order); cbn [negb]; monadic;
         [now repeat split|]);
        (destruct (__activeOrders b !! broker.getId order); monadic;
         now repeat split). }
    destruct Hrest as (Hs & Hc & Hm & Hr).
    repeat split; try assumption.
    intros instrument Hother. now apply shares_after_other.
  - rewrite (_onUserTrades_body_unknown _ _ Hsome). repeat split.
Qed.

Lemma _onUserTrades_untouched trades b :
  untouched_by_trades b (state_after (_onUserTrades trades b)).
Proof.
  unfold _onUserTrades. apply for_each_related.
  - apply untouched_by_trades_refl.
  - apply untouched_by_trades_trans.
  - intros trade b0. apply _onUserTrades_body_untouched.
Qed.

(** X13. Processing trades never sends a request to the exchange and never
    touches the stop flag, the trade monitor or its queue, nor the
    holdings of an instrument other than the traded one, however many
    trades there are and whether the processing returns or raises. *)
Theorem trades_touch_only_the_account trades b :
  untouched_by_trades b (state_after (_onUserTrades trades b)).
Proof. apply _onUserTrades_untouched. Qed.

(** X14. A batch in which no trade belongs to a tracked order is processed
    to its end without an exception: it writes one informational log entry
    for each trade, in the order of the batch, and changes neither the
    cash, nor the holdings, nor the active orders, and emits no event. *)
Theorem orphan_batch_only_logs trades b :
  (forall trade,
     In trade trades -> __activeOrders b !! ut_getOrderId trade = None) ->
  let r := _onUserTrades trades b in
  outcome r = Ok tt /\
  log (state_after r) = log b ++ List.map orphan_entry trades /\
  __cash (state_after r) = __cash b /\
  __shares (state_after r) = __shares b /\
  __activeOrders (state_after r) = __activeOrders b /\
  events (state_after r) = events b.
Proof.
  revert b. unfold _onUserTrades.
  induction trades as [|trade rest IH]; intros b Horphans; cbn zeta.
  - cbn. rewrite List.app_nil_r. repeat split.
  - cbn [for_each]. unfold bind.
    rewrite _onUserTrades_body_unknown by (apply Horphans; now left).
    destruct (IH (logged (orphan_entry trade) b))
      as (Hok & Hlog & Hcash & Hshares & Horders & Hevents).
    { intros trade' Hin. cbn. apply Horphans. now right. }
    fold (orphan_entry trade).
    repeat split; try assumption.
    rewrite Hlog. cbn. now rewrite <- List.app_assoc.
Qed.

(** X15. Processing a batch is processing its trades in order, with no
    effect of how they are grouped: a batch [trades1 ++ trades2] does what
    the batch [trades1] followed, unless it raised, by the batch [trades2]
    does. *)
Theorem batches_compose trades1 trades2 b :
  _onUserTrades (trades1 ++ trades2) b
  = match _onUserTrades trades1 b with
    | (Ok _, b1) => _onUserTrades trades2 b1
    | (Raise e, b1) => (Raise e, b1)
    end.
Proof. unfold _onUserTrades. apply for_each_app. Qed.

(** X16. A trade of an order that is still tracked but is not active any
    more (it was filled by an earlier trade, say) removes the order from
    the active orders, and moves the cash and the holdings like any other
    trade of a tracked order. *)
Theorem trade_of_inactive_order_untracks_it trade order b :
  __activeOrders b !! ut_getOrderId trade = Some order ->
  broker.isActive order = false ->
  broker.getId order = ut_getOrderId trade ->
  let b' := state_after (_onUserTrades_body trade b) in
  __activeOrders b' = delete (ut_getOrderId trade) (__activeOrders b) /\
  __activeOrders b' !! ut_getOrderId trade = None /\
  __cash b' = cash_after trade (__cash b) /\
  __shares b' = shares_after trade order (__shares b).
Proof.
  intros Hsome Hinactive Hid b'. unfold b'.
  rewrite (_onUserTrades_body_inactive _ _ _ Hsome Hinactive Hid). cbn.
  repeat split. apply lookup_delete_eq.
Qed.

(** X17. After a trade of a tracked order, [getShares] of the traded
    instrument is the previous holding plus the BTC amount of the trade,
    rounded by the traits of the order, or 0 when that rounded sum is
    equal to zero; [getShares] of any other instrument is unchanged. *)
Theorem getShares_after_trade trade order b :
  __activeOrders b !! ut_getOrderId trade = Some order ->
  let b' := state_after (_onUserTrades_body trade b) in
  let holding :=
    broker.roundQuantity (broker.getInstrumentTraits order)
      (fadd (getShares btc_symbol b) (ut_getBTC trade)) in
  getShares btc_symbol b' = (if feqb holding f0 then f0 else holding) /\
  forall instrument,
    instrument <> btc_symbol ->
    getShares instrument b' = getShares instrument b.
Proof.
  intros Hsome b' holding.
  destruct (_onUserTrades_body_tracked trade order b Hsome) as [_ Hshares].
  unfold b', getShares. rewrite Hshares. split.
  - unfold shares_after. fold (getShares btc_symbol b).
    change (holding_after trade order (__shares b)) with holding.
    destruct (feqb holding f0).
    + now rewrite lookup_delete_eq.
    + now rewrite lookup_insert_eq.
  - intros instrument Hother. now rewrite shares_after_other.
Qed.

(** X18. When the exchange accepts the cancellation of an order that is
    active and tracked under its identifier, [cancelOrder] returns
    normally: that entry, and no other, is removed from the active
    orders, the order is put in the Canceled state, and exactly one event,
    a Canceled event for the order with the reason "User requested
    cancellation", is emitted; cash and holdings are not touched. *)
Theorem cancelOrder_accepted order tracked b :
  __activeOrders b !! broker.getId order = Some tracked ->
  http_cancelOrder (__httpClient b) (broker.getId order) = Ok tt ->
  broker.isActive order = true ->
  let r := cancelOrder (order, b) in
  let order' := fst (state_after r) in
  let b' := snd (state_after r) in
  outcome r = Ok tt /\
  order' = broker.switchState State.CANCELED order /\
  broker.getState order' = State.CANCELED /\
  __activeOrders b' = delete (broker.getId order) (__activeOrders b) /\
  events b' = events b ++ [canceled_event order'] /\
  requests b' = requests b ++ [req_cancelOrder (broker.getId order)] /\
  __cash b' = __cash b /\
  __shares b' = __shares b.
Proof.
  intros Hsome Haccepted Hactive r order' b'.
  unfold order', b', r, cancelOrder. monadic.
  rewrite Haccepted. monadic. rewrite Hsome. monadic.
  repeat split.
Qed.

(** X19. Once an order has been canceled, a trade that refers to it is an
    orphan: it is only logged, and moves neither the cash nor the
    holdings, even though the exchange executed it. *)
Theorem trade_after_cancel_is_only_logged order tracked trade b :
  __activeOrders b !! broker.getId order = Some tracked ->
  http_cancelOrder (__httpClient b) (broker.getId order) = Ok tt ->
  ut_getOrderId trade = broker.getId order ->
  let b1 := snd (state_after (cancelOrder (order, b))) in
  _onUserTrades [trade] b1 = (Ok tt, logged (orphan_entry trade) b1) /\
  __cash (state_after (_onUserTrades [trade] b1)) = __cash b /\
  __shares (state_after (_onUserTrades [trade] b1)) = __shares b.
Proof.
  intros Hsome Haccepted Hid b1.
  assert (Hb1 : __activeOrders b1 = delete (broker.getId order)
                                      (__activeOrders b) /\
                __cash b1 = __cash b /\ __shares b1 = __shares b).
  { unfold b1, cancelOrder. monadic. rewrite Haccepted. monadic.
    rewrite Hsome. monadic. repeat split. }
  destruct Hb1 as (Horders & Hcash & Hshares).
  assert (Hrun : _onUserTrades [trade] b1
                 = (Ok tt, logged (orphan_entry trade) b1)).
  { unfold _onUserTrades. cbn [for_each]. unfold bind.
    rewrite _onUserTrades_body_unknown; [reflexivity|].
    rewrite Horders, Hid. apply lookup_delete_eq. }
  rewrite Hrun. repeat split; assumption.
Qed.

End TradesFurther.

(** ** Starting, stopping and dispatching *)

Section LifecycleFurther.
Context {F : Type} `{PyFloat F} `{Common F}.
Implicit Types (b : LiveBroker.t F) (userTrades : list (UserTrade F)).
Implicit Types (openOrders : list (OpenOrder F)).

Import LiveBroker.

Lemma refreshAccountBalance_answered b balance :
  getAccountBalance (__httpClient b) = Ok balance ->
  exists b1,
    refreshAccountBalance b = (Ok tt, b1) /\
    same_exchange_and_monitor b b1 /\
    requests b1 = requests b ++ [req_getAccountBalance] /\
    __cash b1 = fround (getUSDAvailable balance) 2 /\
    __shares b1 = {[ btc_symbol := getBTCAvailable balance ]} /\
    __activeOrders b1 = __activeOrders b.
Proof.
  intros Hbalance. unfold refreshAccountBalance. monadic.
  rewrite Hbalance. monadic. eexists. split; [reflexivity|].
  repeat split.
Qed.

Lemma refreshOpenOrders_answered b openOrders :
  getOpenOrders (__httpClient b) = Ok openOrders ->
  (forall openOrder, In openOrder openOrders -> has_side openOrder = true) ->
  exists b1,
    refreshOpenOrders b = (Ok tt, b1) /\
    same_exchange_and_monitor b b1 /\
    requests b1 = requests b ++ [req_getOpenOrders] /\
    __cash b1 = __cash b /\
    __shares b1 = __shares b /\
    forall openOrder,
      In openOrder openOrders ->
      is_Some (__activeOrders b1 !! oo_getId openOrder).
Proof.
  intros Hanswer Hsides. unfold refreshOpenOrders. monadic.
  rewrite Hanswer. monadic.
  destruct (refreshOpenOrders_loop_Ok openOrders
              (sent req_getOpenOrders
                 (logged info_retrieving_open_orders (set_stop true b)))
              Hsides)
    as (activeOrders & Hloop & Hin & _).
  rewrite Hloop. monadic. eexists. split; [reflexivity|].
  repeat split. cbn. intros openOrder Hlisted.
  destruct (Hin openOrder Hlisted) as (? & order & _ & _ & _ & Hsome).
  now exists order.
Qed.


Lemma _startTradeMonitor_failed b e :
  getUserTransactions (__httpClient b) = Raise e ->
  exists b1,
    _startTradeMonitor b = (Raise e, b1) /\
    __tradeMonitor b1 = __tradeMonitor b /\
    __stop b1 = true /\
    __cash b1 = __cash b /\
    __shares b1 = __shares b /\
    __activeOrders b1 = __activeOrders b.
Proof.
  intros Hanswer. unfold _startTradeMonitor. monadic. rewrite Hanswer.
  eexists. split; [reflexivity|]. repeat split.
Qed.


(** X21. When the balance and the open orders are answered but the trade
    history is not, [start] raises what that fetch raised, with [eof]
    true and the trade monitor as it was, its thread not started; the cash
    and the holdings have been refreshed by then. *)
Theorem start_fails_at_the_trade_monitor b balance openOrders e :
  getAccountBalance (__httpClient b) = Ok balance ->
  getOpenOrders (__httpClient b) = Ok openOrders ->
  (forall openOrder, In openOrder openOrders -> has_side openOrder = true) ->
  getUserTransactions (__httpClient b) = Raise e ->
  let r := start b in
  outcome r = Raise e /\
  eof (state_after r) = true /\
  __tradeMonitor (state_after r) = __tradeMonitor b /\
  __cash (state_after r) = fround (getUSDAvailable balance) 2 /\
  __shares (state_after r) = {[ btc_symbol := getBTCAvailable balance ]}.
Proof.
  intros Hbalance Horders Hsides Htrades r. unfold r, start, bind.
  destruct (refreshAccountBalance_answered b balance Hbalance)
    as (b1 & -> & (Hc1 & Hm1 & _) & _ & Hcash1 & Hshares1 & _).
  rewrite <- Hc1 in Horders, Htrades.
  destruct (refreshOpenOrders_answered b1 openOrders Horders Hsides)
    as (b2 & -> & (Hc2 & Hm2 & _) & _ & Hcash2 & Hshares2 & _).
  rewrite <- Hc2 in Htrades.
  destruct (_startTradeMonitor_failed b2 e Htrades)
    as (b3 & -> & Hm3 & Hstop3 & Hcash3 & Hshares3 & _).
  unfold eof. cbn [outcome state_after fst snd].
  rewrite Hstop3, Hm3, Hm2, Hm1, Hcash3, Hcash2, Hcash1, Hshares3,
    Hshares2, Hshares1.
  repeat split.
Qed.

(** X22. [stop] returns normally and sends nothing to the exchange:
    afterwards [eof] is true and the stop flag of the trade monitor is
    set, so that the loop of the monitor, at its next test of the flag,
    returns without fetching, publishing or sleeping; what is in the
    queue stays there, and the account is not touched. *)
Theorem stop_halts_broker_and_monitor b :
  let r := stop b in
  let tm := __tradeMonitor (state_after r) in
  outcome r = Ok tt /\
  eof (state_after r) = true /\
  TradeMonitor.__stop tm = true /\
  (forall fetches, TradeMonitor.run fetches tm = (Ok tt, tm)) /\
  TradeMonitor.__queue tm = TradeMonitor.__queue (__tradeMonitor b) /\
  TradeMonitor.__lastTradeId tm
  = TradeMonitor.__lastTradeId (__tradeMonitor b) /\
  requests (state_after r) = requests b /\
  __cash (state_after r) = __cash b /\
  __shares (state_after r) = __shares b /\
  __activeOrders (state_after r) = __activeOrders b /\
  events (state_after r) = events b.
Proof.
  cbv zeta. unfold stop. monadic. unfold eof. cbn.
  repeat split. intros fetches. now apply run_stopped.
Qed.

Lemma dispatch_popped b eventType eventData rest :
  TradeMonitor.getQueue (__tradeMonitor b) = (eventType, eventData) :: rest ->
  dispatch b
  = if Z.eqb eventType TradeMonitor.ON_USER_TRADE
    then _onUserTrades eventData (with_queue rest b)
    else (Ok tt, logged (error_invalid_event eventType) (with_queue rest b)).
Proof.
  intros Hqueue. unfold dispatch. monadic. rewrite Hqueue. monadic.
  unfold with_queue. now destruct (Z.eqb eventType _).
Qed.

Lemma dispatch_empty b :
  TradeMonitor.getQueue (__tradeMonitor b) = [] -> dispatch b = (Ok tt, b).
Proof.
  intros Hqueue. unfold dispatch. monadic. now rewrite Hqueue.
Qed.

(** X23. [dispatch] takes exactly the oldest event off the queue, and the
    others stay in their order, even if processing the event raises.  A
    user-trade event is given to [_onUserTrades]; an event of any other
    type is logged as an error and dropped, with no effect on the cash,
    the holdings, the active orders or the events. *)
Theorem dispatch_consumes_the_oldest_event b eventType eventData rest :
  TradeMonitor.getQueue (__tradeMonitor b) = (eventType, eventData) :: rest ->
  let r := dispatch b in
  TradeMonitor.getQueue (__tradeMonitor (state_after r)) = rest /\
  (eventType = TradeMonitor.ON_USER_TRADE ->
   r = _onUserTrades eventData (with_queue rest b)) /\
  (eventType <> TradeMonitor.ON_USER_TRADE ->
   outcome r = Ok tt /\
   log (state_after r) = log b ++ [error_invalid_event eventType] /\
   __cash (state_after r) = __cash b /\
   __shares (state_after r) = __shares b /\
   __activeOrders (state_after r) = __activeOrders b /\
   events (state_after r) = events b).
Proof.
  intros Hqueue r. unfold r. rewrite (dispatch_popped _ _ _ _ Hqueue).
  destruct (Z.eqb_spec eventType TradeMonitor.ON_USER_TRADE) as [->|Hother].
  - split; [|split; [reflexivity|congruence]].
    destruct (_onUserTrades_untouched eventData (with_queue rest b))
      as (_ & _ & -> & _).
    reflexivity.
  - split; [reflexivity|]. split; [congruence|]. intros _. repeat split.
Qed.

(** X24. From the poller to the reconciler: on an empty queue, after an
    iteration of the monitor that found new trades, [dispatch] processes
    exactly those trades, in the order in which the monitor published
    them, and leaves the queue empty; after an iteration that found
    nothing new, or whose fetch failed, [dispatch] does nothing. *)
Theorem polled_trades_are_dispatched answer b :
  TradeMonitor.getQueue (__tradeMonitor b) = [] ->
  let b1 := polled answer b in
  let batch :=
    match answer with
    | Ok userTrades =>
        rev (TradeMonitor.collect_new
               (TradeMonitor.__lastTradeId (__tradeMonitor b)) userTrades)
    | Raise _ => []
    end in
  dispatch b1
  = match batch with
    | [] => (Ok tt, b1)
    | _ => _onUserTrades batch (with_queue [] b1)
    end.
Proof.
  intros Hempty b1 batch. unfold TradeMonitor.getQueue in Hempty.
  destruct answer as [userTrades|e].
  - destruct (TradeMonitor.collect_new
                (TradeMonitor.__lastTradeId (__tradeMonitor b)) userTrades)
      as [|newest others] eqn:Hnew.
    + unfold batch. cbn [rev]. apply dispatch_empty.
      unfold b1, polled, cycle.
      rewrite (run_iteration_Ok_nothing_new _ _ Hnew). exact Hempty.
    + assert (Hqueue :
        TradeMonitor.getQueue (__tradeMonitor b1)
        = [(TradeMonitor.ON_USER_TRADE, batch)]).
      { unfold b1, polled, cycle.
        rewrite (run_iteration_Ok_new _ _ _ _ Hnew). cbn.
        now rewrite Hempty. }
      rewrite (dispatch_popped _ _ _ _ Hqueue). cbn [Z.eqb Pos.eqb].
      unfold TradeMonitor.ON_USER_TRADE. cbn [Z.eqb Pos.eqb].
      destruct batch eqn:Hbatch; [|reflexivity].
      unfold batch in Hbatch. apply (f_equal (@length _)) in Hbatch.
      rewrite List.length_rev in Hbatch. discriminate.
  - unfold batch. apply dispatch_empty. exact Hempty.
Qed.

End LifecycleFurther.

(** ** Witnesses of the further properties *)

Import Inputs.

Lemma built_order_is_accepted_open_order_witness :
  build_order_from_open_order O1 BTCTraits = Ok order_O1 /\
  broker.getId order_O1 = 1 /\
  broker.getAction order_O1 = Action.BUY /\
  broker.getState order_O1 = State.ACCEPTED.
Proof.
  assert (Hbuilt : build_order_from_open_order O1 BTCTraits = Ok order_O1)
    by reflexivity.
  split; [exact Hbuilt|].
  destruct (built_order_is_accepted_open_order O1 BTCTraits order_O1 Hbuilt)
    as (Hid & Haction & _ & _ & _ & _ & _ & Hstate).
  split; [exact Hid|]. split; [exact Haction|exact Hstate].
Defined.


Lemma refreshed_balance_is_what_accessors_return_witness :
  getAccountBalance (LiveBroker.__httpClient fresh)
  = Ok {| getUSDAvailable := dec 1000 0; getBTCAvailable := dec 2 0 |} /\
  LiveBroker.getShares btc_symbol
    (state_after (LiveBroker.refreshAccountBalance fresh)) = dec 2 0 /\
  LiveBroker.getCash true
    (state_after (LiveBroker.refreshAccountBalance fresh)) = dec 1000 0.
Proof.
  assert (Hbalance :
    getAccountBalance (LiveBroker.__httpClient fresh)
    = Ok {| getUSDAvailable := dec 1000 0; getBTCAvailable := dec 2 0 |})
    by reflexivity.
  split; [exact Hbalance|].
  destruct (refreshed_balance_is_what_accessors_return fresh _ Hbalance)
    as (_ & Hcash & Hshares & _).
  split; [exact Hshares|]. rewrite (Hcash true). reflexivity.
Defined.

Lemma failed_balance_refresh_keeps_the_account_witness :
  getAccountBalance
    (LiveBroker.__httpClient (LiveBroker.__init__ unreachable))
  = Raise (IOError "connection refused") /\
  outcome (LiveBroker.refreshAccountBalance (LiveBroker.__init__ unreachable))
  = Raise (IOError "connection refused") /\
  LiveBroker.eof
    (state_after
       (LiveBroker.refreshAccountBalance (LiveBroker.__init__ unreachable)))
  = true.
Proof.
  assert (Hfail :
    getAccountBalance
      (LiveBroker.__httpClient (LiveBroker.__init__ unreachable))
    = Raise (IOError "connection refused")) by reflexivity.
  split; [exact Hfail|].
  destruct (failed_balance_refresh_keeps_the_account
              (LiveBroker.__init__ unreachable) _ Hfail)
    as (Hraise & _ & _ & _ & _ & Heof).
  split; [exact Hraise|exact Heof].
Defined.

Lemma sides_O1_O3 :
  forall openOrder, In openOrder [O1; O3] -> has_side openOrder = true.
Proof. intros openOrder [<-|[<-|[]]]; reflexivity. Defined.

Lemma sides_O1 :
  forall openOrder, In openOrder [O1] -> has_side openOrder = true.
Proof. intros openOrder [<-|[]]; reflexivity. Defined.

Lemma refreshed_open_orders_are_tracked_witness :
  (getOpenOrders (LiveBroker.__httpClient fresh) = Ok [O1; O3] /\
   forall openOrder, In openOrder [O1; O3] -> has_side openOrder = true) /\
  outcome (LiveBroker.refreshOpenOrders fresh) = Ok tt /\
  LiveBroker.eof (state_after (LiveBroker.refreshOpenOrders fresh)) = false.
Proof.
  assert (Hanswer : getOpenOrders (LiveBroker.__httpClient fresh)
                    = Ok [O1; O3]) by reflexivity.
  split; [split; [exact Hanswer|exact sides_O1_O3]|].
  destruct (refreshed_open_orders_are_tracked fresh [O1; O3] Hanswer
              sides_O1_O3)
    as (Hok & Heof & _).
  split; [exact Hok|exact Heof].
Defined.

Lemma invalid_open_order_stops_the_refresh_witness :
  (getOpenOrders (LiveBroker.__httpClient half_listed)
   = Ok ([O1] ++ O_bad :: [O3]) /\
   (forall openOrder, In openOrder [O1] -> has_side openOrder = true) /\
   has_side O_bad = false) /\
  outcome (LiveBroker.refreshOpenOrders half_listed)
  = Raise (Exception "Invalid order type") /\
  LiveBroker.eof (state_after (LiveBroker.refreshOpenOrders half_listed))
  = true /\
  LiveBroker.__activeOrders
    (state_after (LiveBroker.refreshOpenOrders half_listed)) !! 3 = None.
Proof.
  assert (Hanswer : getOpenOrders (LiveBroker.__httpClient half_listed)
                    = Ok ([O1] ++ O_bad :: [O3])) by reflexivity.
  assert (Hbad : has_side O_bad = false) by reflexivity.
  split; [split; [exact Hanswer|split; [exact sides_O1|exact Hbad]]|].
  destruct (invalid_open_order_stops_the_refresh half_listed [O1] O_bad [O3]
              Hanswer sides_O1 Hbad)
    as (Hraise & Heof & _ & Hother).
  split; [exact Hraise|]. split; [exact Heof|].
  rewrite Hother; [reflexivity|].
  intros openOrder [<-|[]]. discriminate.
Defined.

Lemma active_orders_stay_stored_under_their_id_witness :
  well_keyed (LiveBroker.__init__ (exchange (dec 1000 0) (dec 2 0) [O1; O3] [T1]))
  /\ well_keyed (state_after (LiveBroker.refreshOpenOrders fresh))
  /\ well_keyed
       (state_after
          (LiveBroker._onUserTrades [T1; T2]
             (state_after (LiveBroker.refreshOpenOrders fresh)))).
Proof.
  destruct (@active_orders_stay_stored_under_their_id Q _ _)
    as (Hinit & Hrefresh & Htrades & _).
  pose proof (Hinit (exchange (dec 1000 0) (dec 2 0) [O1; O3] [T1]))
    as Hfresh.
  split; [exact Hfresh|].
  split; [exact (Hrefresh fresh Hfresh)|].
  exact (Htrades [T1; T2] _ (Hrefresh fresh Hfresh)).
Defined.

Lemma orphan_batch_only_logs_witness :
  (forall trade,
     In trade [T77; T77] ->
     LiveBroker.__activeOrders started !! ut_getOrderId trade = None) /\
  outcome (LiveBroker._onUserTrades [T77; T77] started) = Ok tt /\
  LiveBroker.events (state_after (LiveBroker._onUserTrades [T77; T77] started))
  = [].
Proof.
  assert (Horphans :
    forall trade,
      In trade [T77; T77] ->
      LiveBroker.__activeOrders started !! ut_getOrderId trade = None).
  { intros trade [<-|[<-|[]]]; reflexivity. }
  split; [exact Horphans|].
  destruct (orphan_batch_only_logs [T77; T77] started Horphans)
    as (Hok & _ & _ & _ & _ & Hevents).
  split; [exact Hok|]. rewrite Hevents. reflexivity.
Defined.

Lemma trade_of_inactive_order_untracks_it_witness :
  (LiveBroker.__activeOrders after_T1_T2 !! ut_getOrderId T_full
   = Some order_O1_filled /\
   broker.isActive order_O1_filled = false /\
   broker.getId order_O1_filled = ut_getOrderId T_full) /\
  LiveBroker.__activeOrders
    (state_after (LiveBroker._onUserTrades_body T_full after_T1_T2)) !! 1
  = None.
Proof.
  assert (Hsome : LiveBroker.__activeOrders after_T1_T2 !! ut_getOrderId T_full
                  = Some order_O1_filled) by reflexivity.
  assert (Hinactive : broker.isActive order_O1_filled = false)
    by reflexivity.
  assert (Hid : broker.getId order_O1_filled = ut_getOrderId T_full)
    by reflexivity.
  split; [repeat split; assumption|].
  destruct (trade_of_inactive_order_untracks_it T_full order_O1_filled
              after_T1_T2 Hsome Hinactive Hid)
    as (_ & Hnone & _).
  exact Hnone.
Defined.

Lemma getShares_after_trade_witness :
  LiveBroker.__activeOrders started !! ut_getOrderId T1 = Some order_O1 /\
  LiveBroker.getShares btc_symbol
    (state_after (LiveBroker._onUserTrades_body T1 started))
  = dec 4 1.
Proof.
  assert (Hsome : LiveBroker.__activeOrders started !! ut_getOrderId T1
                  = Some order_O1) by reflexivity.
  split; [exact Hsome|].
  destruct (getShares_after_trade T1 order_O1 started Hsome) as [Hshares _].
  rewrite Hshares. reflexivity.
Defined.

Lemma cancelOrder_accepted_witness :
  (LiveBroker.__activeOrders started !! broker.getId order_O1
   = Some order_O1 /\
   http_cancelOrder (LiveBroker.__httpClient started) (broker.getId order_O1)
   = Ok tt /\
   broker.isActive order_O1 = true) /\
  outcome (LiveBroker.cancelOrder (order_O1, started)) = Ok tt /\
  LiveBroker.__activeOrders
    (snd (state_after (LiveBroker.cancelOrder (order_O1, started)))) !! 1
  = None.
Proof.
  assert (Hsome : LiveBroker.__activeOrders started !! broker.getId order_O1
                  = Some order_O1) by reflexivity.
  assert (Haccepted :
    http_cancelOrder (LiveBroker.__httpClient started)
      (broker.getId order_O1) = Ok tt) by reflexivity.
  assert (Hactive : broker.isActive order_O1 = true) by reflexivity.
  split; [repeat split; assumption|].
  destruct (cancelOrder_accepted order_O1 order_O1 started Hsome Haccepted
              Hactive)
    as (Hok & _ & _ & Horders & _).
  split; [exact Hok|]. rewrite Horders. reflexivity.
Defined.

Lemma trade_after_cancel_is_only_logged_witness :
  (LiveBroker.__activeOrders started !! broker.getId order_O1
   = Some order_O1 /\
   http_cancelOrder (LiveBroker.__httpClient started) (broker.getId order_O1)
   = Ok tt /\
   ut_getOrderId T2 = broker.getId order_O1) /\
  LiveBroker.__cash
    (state_after
       (LiveBroker._onUserTrades [T2]
          (snd (state_after (LiveBroker.cancelOrder (order_O1, started))))))
  = dec 1000 0.
Proof.
  assert (Hsome : LiveBroker.__activeOrders started !! broker.getId order_O1
                  = Some order_O1) by reflexivity.
  assert (Haccepted :
    http_cancelOrder (LiveBroker.__httpClient started)
      (broker.getId order_O1) = Ok tt) by reflexivity.
  assert (Hid : ut_getOrderId T2 = broker.getId order_O1) by reflexivity.
  split; [repeat split; assumption|].
  destruct (trade_after_cancel_is_only_logged order_O1 order_O1 T2 started
              Hsome Haccepted Hid)
    as (_ & Hcash & _).
  rewrite Hcash. reflexivity.
Defined.


Lemma start_fails_at_the_trade_monitor_witness :
  (getAccountBalance (LiveBroker.__httpClient blind)
   = Ok {| getUSDAvailable := dec 1000 0; getBTCAvailable := dec 2 0 |} /\
   getOpenOrders (LiveBroker.__httpClient blind) = Ok [O1] /\
   (forall openOrder, In openOrder [O1] -> has_side openOrder = true) /\
   getUserTransactions (LiveBroker.__httpClient blind)
   = Raise (IOError "timed out")) /\
  outcome (LiveBroker.start blind) = Raise (IOError "timed out") /\
  LiveBroker.eof (state_after (LiveBroker.start blind)) = true /\
  TradeMonitor.alive
    (LiveBroker.__tradeMonitor (state_after (LiveBroker.start blind)))
  = false.
Proof.
  assert (Hbalance :
    getAccountBalance (LiveBroker.__httpClient blind)
    = Ok {| getUSDAvailable := dec 1000 0; getBTCAvailable := dec 2 0 |})
    by reflexivity.
  assert (Horders : getOpenOrders (LiveBroker.__httpClient blind) = Ok [O1])
    by reflexivity.
  assert (Htrades : getUserTransactions (LiveBroker.__httpClient blind)
                    = Raise (IOError "timed out")) by reflexivity.
  split; [repeat split; try assumption; exact sides_O1|].
  destruct (start_fails_at_the_trade_monitor blind _ [O1] _ Hbalance Horders
              sides_O1 Htrades)
    as (Hraise & Heof & Hmonitor & _).
  split; [exact Hraise|]. split; [exact Heof|]. rewrite Hmonitor.
  reflexivity.
Defined.

Lemma dispatch_consumes_the_oldest_event_witness :
  TradeMonitor.getQueue
    (LiveBroker.__tradeMonitor (polled (Ok [T1]) started))
  = (TradeMonitor.ON_USER_TRADE, [T1]) :: [] /\
  TradeMonitor.getQueue
    (LiveBroker.__tradeMonitor
       (state_after (LiveBroker.dispatch (polled (Ok [T1]) started))))
  = [] /\
  LiveBroker.dispatch (polled (Ok [T1]) started)
  = LiveBroker._onUserTrades [T1] (with_queue [] (polled (Ok [T1]) started)).
Proof.
  assert (Hqueue :
    TradeMonitor.getQueue
      (LiveBroker.__tradeMonitor (polled (Ok [T1]) started))
    = (TradeMonitor.ON_USER_TRADE, [T1]) :: []) by reflexivity.
  split; [exact Hqueue|].
  destruct (dispatch_consumes_the_oldest_event _ _ _ _ Hqueue)
    as (Hrest & Htrades & _).
  split; [exact Hrest|exact (Htrades eq_refl)].
Defined.

Lemma polled_trades_are_dispatched_witness :
  TradeMonitor.getQueue (LiveBroker.__tradeMonitor started) = [] /\
  LiveBroker.__cash
    (state_after (LiveBroker.dispatch (polled (Ok [T2; T1]) started)))
  = dec 89975 2.
Proof.
  assert (Hempty : TradeMonitor.getQueue (LiveBroker.__tradeMonitor started)
                   = []) by reflexivity.
  split; [exact Hempty|].
  rewrite (polled_trades_are_dispatched (Ok [T2; T1]) started Hempty).
  vm_compute. reflexivity.
Defined.
